(** * Photo-calendar test-image generators

    A shallow embedding of the image-generator scripts of the repository
    (create_test_poster.py, create-test-event-image.py, create-test-image.py
    and test-images/test-event.py) and of scripts/create-oauth-client.py,
    and the properties of their font resolution, text measurement, line
    layout, persistence and control flow.

    Conventions of the embedding.
    - Python [int] is [Z]; [//] is [Z.div] (floor division).
    - Python [str] is [string], holding the UTF-8 encoding of the text.  On
      well-formed UTF-8 the byte-wise [startswith] and [in] agree with the
      code-point-wise ones of Python.
    - An exception is the [Raise] outcome of [result]; a bare [except:] is
      [try_except].  Mutations made before an exception are kept.
    - A PIL image is the ordered trace of the draw calls issued on it.
      Whether a call completes ([Image.new], a draw call, [Image.save]
      without a format, [print]) is a parameter too, [Runtime]: a generator
      plays its draw calls in the order issued and stops at the first that
      raises.
    - What the host offers (which font files exist and load, which
      measurement and drawing primitives the installed PIL supports, which
      directories are writable) is a parameter: [Host] and [Renderer].
    - The [print] calls of create-test-image.py, create-test-event-image.py
      and test-images/test-event.py are steps that may raise ([print_line]);
      those of scripts/create-oauth-client.py are recorded, as the list of
      printed lines; those of create_test_poster.py are not modelled. *)

From Stdlib Require Import ZArith String List Ascii Bool Lia.
Import ListNotations.

Open Scope Z_scope.
Open Scope string_scope.

(** ** Python values and exceptions *)

Inductive exn : Type :=
| AttributeError
| ValueError
| OSError
| FileNotFoundError
| PermissionError
| UnicodeEncodeError.

Inductive result (A : Type) : Type :=
| Ok (a : A)
| Raise (e : exn).

Arguments Ok {A} a.
Arguments Raise {A} e.

(** [try: body  except: handler] on a computation without state. *)
Definition try_pure {A} (body : result A) (handler : result A) : result A :=
  match body with
  | Ok a => Ok a
  | Raise _ => handler
  end.

Definition rbind {A B} (m : result A) (k : A -> result B) : result B :=
  match m with
  | Ok a => k a
  | Raise e => Raise e
  end.

(** [s.startswith(p)] *)
Definition startswith (s p : string) : bool := prefix p s.

(** [sub in s] for strings *)
Fixpoint str_in (sub s : string) : bool :=
  prefix sub s ||
  match s with
  | EmptyString => false
  | String _ t => str_in sub t
  end.

(** [s.split('\n')] *)
Fixpoint split_nl (s : string) : list string :=
  match s with
  | EmptyString => [EmptyString]
  | String c t =>
      if Ascii.eqb c "010"%char then EmptyString :: split_nl t
      else match split_nl t with
           | [] => [String c EmptyString]
           | l :: ls => String c l :: ls
           end
  end.

(** ** PIL: fonts, colours, draw calls *)

Inductive font : Type :=
| FreeTypeFont (path : string) (size : Z)   (* ImageFont.truetype(path, size) *)
| DefaultFont.                              (* ImageFont.load_default() *)

(** [hasattr(font, 'path')] *)
Definition has_path (f : font) : bool :=
  match f with FreeTypeFont _ _ => true | DefaultFont => false end.

Definition font_path (f : font) : string :=
  match f with FreeTypeFont p _ => p | DefaultFont => "" end.

Inductive color : Type :=
| Named (name : string)        (* 'white', '#f39c12', ... *)
| RGB (r g b : Z).

Definition point : Type := Z * Z.
Definition box : Type := point * point.

Inductive DrawCommand : Type :=
| Text (xy : point) (text : string) (fill : color) (fnt : font)
       (anchor : option string)
| Rectangle (b : box) (fill outline : option color) (width : Z)
| RoundedRectangle (b : box) (radius : Z) (fill outline : option color)
                   (width : Z)
| Arc (b : box) (start stop : Z) (fill : color) (width : Z)
| Line (p q : point) (fill : color) (width : Z).

Record Image : Type := mkImage {
  size : Z * Z;
  background : color;
  commands : list DrawCommand
}.

(** [Image.new('RGB', size, bg)] *)
Definition Image_new (sz : Z * Z) (bg : color) : Image := mkImage sz bg [].

Definition emit (img : Image) (c : DrawCommand) : Image :=
  mkImage (size img) (background img) (commands img ++ [c]).

(** [draw.text(xy, text, fill=, font=, anchor=)] *)
Definition draw_text (img : Image) (xy : point) (text : string) (fill : color)
  (fnt : font) (anchor : option string) : Image :=
  emit img (Text xy text fill fnt anchor).

Definition draw_rectangle (img : Image) (b : box) (fill outline : option color)
  (width : Z) : Image :=
  emit img (Rectangle b fill outline width).

(** [draw.rounded_rectangle(box, radius=, fill=, outline=, width=)], a method
    of Pillow 8.2 and later *)
Definition draw_rounded_rectangle (img : Image) (b : box) (radius : Z)
  (fill outline : option color) (width : Z) : Image :=
  emit img (RoundedRectangle b radius fill outline width).

Definition draw_line (img : Image) (p q : point) (fill : color) (width : Z)
  : Image :=
  emit img (Line p q fill width).

(** What the installed PIL supports.  [textbbox] and [textsize] are the two
    measurement calls, each of which may be missing or fail; [arc_ok] tells
    whether [draw.arc] on a given box succeeds. *)
Record Renderer : Type := mkRenderer {
  textbbox : string -> font -> result (Z * Z * Z * Z);
  textsize : string -> font -> result (Z * Z);
  arc_ok : box -> bool
}.

(** [draw.arc(box, start, end, fill=, width=)] *)
Definition draw_arc (r : Renderer) (img : Image) (b : box) (start stop : Z)
  (fill : color) (width : Z) : result Image :=
  if arc_ok r b then Ok (emit img (Arc b start stop fill width))
  else Raise AttributeError.

(** ** The host: font files *)

Record Host : Type := mkHost {
  path_exists : string -> bool;        (* os.path.exists on a font path *)
  loadable : string -> Z -> bool;      (* does ImageFont.truetype succeed *)
  dir_writable : string -> bool        (* may entries be created in a directory *)
}.

(** ** Process state: the calls made to ImageFont.truetype, the directories
    that exist besides the working directory, the image files written (latest
    first) and the paths [Image.save] was called with. *)

Record World : Type := mkWorld {
  truetype_calls : list (string * Z);
  dirs : list string;
  files : list (string * Image);
  save_calls : list string
}.

Definition M (A : Type) : Type := World -> result A * World.

Definition ret {A} (a : A) : M A := fun w => (Ok a, w).

Definition bind {A B} (m : M A) (k : A -> M B) : M B :=
  fun w =>
    match m w with
    | (Ok a, w') => k a w'
    | (Raise e, w') => (Raise e, w')
    end.

Definition lift {A} (r : result A) : M A := fun w => (r, w).

(** [try: body  except: handler] *)
Definition try_except {A} (body handler : M A) : M A :=
  fun w =>
    match body w with
    | (Ok a, w') => (Ok a, w')
    | (Raise _, w') => handler w'
    end.

Declare Scope py_scope.
Delimit Scope py_scope with py.
Notation "x <- m ;; k" := (bind m (fun x => k))
  (at level 100, m at next level, right associativity) : py_scope.
Notation "' p <- m ;; k" := (bind m (fun v => let p := v in k))
  (at level 100, p pattern, m at next level, right associativity) : py_scope.
Open Scope py_scope.

(** The state after one more call of [ImageFont.truetype]. *)
Definition log_truetype (w : World) (path : string) (sz : Z) : World :=
  mkWorld (truetype_calls w ++ [(path, sz)]) (dirs w) (files w) (save_calls w).

(** [ImageFont.truetype(path, size)] *)
Definition truetype (h : Host) (path : string) (sz : Z) : M font :=
  fun w =>
    if loadable h path sz
    then (Ok (FreeTypeFont path sz), log_truetype w path sz)
    else (Raise OSError, log_truetype w path sz).

Definition load_default : font := DefaultFont.

(** The loop shared by the generators:
[[
    font = None
    for font_path in font_paths:
        if os.path.exists(font_path):
            font = ImageFont.truetype(font_path, size)
            break
]] *)
Fixpoint find_font (h : Host) (font_paths : list string) (sz : Z)
  : M (option font) :=
  match font_paths with
  | [] => ret None
  | font_path :: rest =>
      if path_exists h font_path
      then f <- truetype h font_path sz ;; ret (Some f)
      else find_font h rest sz
  end.

(** [font] after [if not font: font = ImageFont.load_default()] *)
Definition or_default (f : option font) : font :=
  match f with Some f => f | None => load_default end.

(** The first candidate that exists on the host. *)
Fixpoint first_existing (h : Host) (paths : list string) : option string :=
  match paths with
  | [] => None
  | p :: rest => if path_exists h p then Some p else first_existing h rest
  end.

(** ** Paths and the file system *)

Definition is_sep (c : ascii) : bool := Ascii.eqb c "/"%char.

(** [p[:p.rfind('/') + 1]] *)
Fixpoint head_to_last_sep (p : string) : string :=
  match p with
  | EmptyString => EmptyString
  | String c t =>
      let h := head_to_last_sep t in
      if negb (String.eqb h "") || is_sep c then String c h else EmptyString
  end.

Fixpoint all_sep (s : string) : bool :=
  match s with
  | EmptyString => true
  | String c t => is_sep c && all_sep t
  end.

(** [s.rstrip('/')] *)
Fixpoint rstrip_sep (s : string) : string :=
  match s with
  | EmptyString => EmptyString
  | String c t =>
      let t' := rstrip_sep t in
      if is_sep c && String.eqb t' "" then EmptyString else String c t'
  end.

(** [os.path.dirname(p)] (posixpath) *)
Definition dirname (p : string) : string :=
  let head := head_to_last_sep p in
  if negb (String.eqb head "") && negb (all_sep head) then rstrip_sep head
  else head.

Fixpoint ends_with_sep (s : string) : bool :=
  match s with
  | EmptyString => false
  | String c EmptyString => is_sep c
  | String _ t => ends_with_sep t
  end.

(** [os.path.join(a, b)] for a relative [b] *)
Definition path_join (a b : string) : string :=
  if String.eqb a "" || ends_with_sep a then a ++ b else a ++ "/" ++ b.

(** The working directory is the directory named by the empty string. *)
Definition dir_exists (w : World) (d : string) : bool :=
  String.eqb d "" || existsb (String.eqb d) (dirs w).

(** [image.save(filename, 'PNG')], the format given: opens [filename] for
    writing, once. *)
Definition save (h : Host) (filename : string) (img : Image) : M unit :=
  fun w =>
    let w' := mkWorld (truetype_calls w) (dirs w) (files w)
                (save_calls w ++ [filename]) in
    let d := dirname filename in
    if negb (dir_exists w d) then (Raise FileNotFoundError, w')
    else if negb (dir_writable h d) then (Raise PermissionError, w')
    else (Ok tt, mkWorld (truetype_calls w) (dirs w)
                   ((filename, img) :: files w) (save_calls w ++ [filename])).

(** [os.mkdir(name)] when [name] does not exist yet *)
Definition mkdir (h : Host) (name : string) : M unit :=
  fun w =>
    let d := dirname name in
    if negb (dir_exists w d) then (Raise FileNotFoundError, w)
    else if negb (dir_writable h d) then (Raise PermissionError, w)
    else (Ok tt, mkWorld (truetype_calls w) (name :: dirs w) (files w)
                   (save_calls w)).

(** [os.makedirs(name, exist_ok=True)]; the recursion on the parent is
    bounded by the length of [name], which every [dirname] shortens. *)
Fixpoint makedirs_rec (fuel : nat) (h : Host) (name : string) : M unit :=
  fun w =>
    let head := dirname name in
    let parents : M unit :=
      if negb (String.eqb head "") && negb (dir_exists w head) then
        match fuel with
        | O => ret tt
        | S n => makedirs_rec n h head
        end
      else ret tt in
    (_ <- parents ;;
     fun w1 => if dir_exists w1 name then (Ok tt, w1) else mkdir h name w1) w.

Definition makedirs (h : Host) (name : string) : M unit :=
  makedirs_rec (String.length name) h name.

(** ** Which calls complete

    The draw functions above record the call that is issued.  Whether the
    library completes it depends on the installed PIL and on the font:
    [Image.new] rejects a negative size and a colour it does not know, a draw
    call rejects such a colour, a text its font cannot encode and a method
    the installed version does not have, and [Image.save] without a format
    needs a file name whose extension names one.  [print] raises when the
    standard output cannot encode or take the text. *)
Record Runtime : Type := mkRuntime {
  new_image : Z * Z -> color -> result unit;  (* Image.new('RGB', size, color) *)
  draw : DrawCommand -> result unit;          (* a draw call, on any image *)
  format_known : string -> bool;              (* the extension names a format *)
  print_line : string -> result unit          (* print(s) *)
}.

(** The draw calls in the order issued: the first that raises ends them. *)
Fixpoint play (rt : Runtime) (cmds : list DrawCommand) : result unit :=
  match cmds with
  | [] => Ok tt
  | c :: rest => rbind (draw rt c) (fun _ => play rt rest)
  end.

(** The state after one more call of [Image.save]. *)
Definition log_save (w : World) (filename : string) : World :=
  mkWorld (truetype_calls w) (dirs w) (files w) (save_calls w ++ [filename]).

(** [image.save(filename)], the format taken from the extension of
    [filename]: an extension that names no format raises ValueError before
    the file is opened. *)
Definition save_by_extension (rt : Runtime) (h : Host) (filename : string)
  (img : Image) : M unit :=
  fun w =>
    if format_known rt filename then save h filename img w
    else (Raise ValueError, log_save w filename).

(** ** create_test_poster.py *)

Module CreateTestPoster.

Definition width : Z := 800.
Definition height : Z := 1200.
Definition background_color : color := RGB 255 255 255.

Definition korean_font_paths : list string :=
  [ "/System/Library/Fonts/AppleSDGothicNeo.ttc";
    "/System/Library/Fonts/Helvetica.ttc";
    "/Windows/Fonts/malgun.ttf";
    "/usr/share/fonts/truetype/noto/NotoSansCJK-Regular.ttc" ].

Definition title_color : color := RGB 0 0 0.
Definition accent_color : color := RGB 220 20 60.
Definition text_color : color := RGB 40 40 40.

Definition event_title : string := "2025 K-POP 페스티벌".
Definition event_date : string := "2025년 9월 15일 (토)".
Definition event_time : string := "오후 7시 30분".
Definition event_location : string := "잠실 올림픽공원 KSPO돔".
Definition event_price : string := "VIP 150,000원 / 일반 80,000원".

Definition all_default : font * font * font * font :=
  (load_default, load_default, load_default, load_default).

(** Lines 14-47: the four fonts (title, subtitle, body, small). *)
Definition setup_fonts (h : Host) : M (font * font * font * font) :=
  try_except
    (match first_existing h korean_font_paths with
     | Some font_path =>
         if String.eqb font_path "" then ret all_default
         else
           title_font <- truetype h font_path 72 ;;
           subtitle_font <- truetype h font_path 48 ;;
           body_font <- truetype h font_path 36 ;;
           small_font <- truetype h font_path 28 ;;
           ret (title_font, subtitle_font, body_font, small_font)
     | None => ret all_default
     end)
    (ret all_default).

(** Lines 62-70.  [canvas_width] is the [width] the closure captures. *)
Definition get_centered_x (r : Renderer) (canvas_width : Z) (text : string)
  (fnt : font) : result Z :=
  try_pure
    (rbind (textbbox r text fnt) (fun bbox =>
       let '(x0, _, x1, _) := bbox in
       let text_width := x1 - x0 in
       Ok ((canvas_width - text_width) / 2)))
    (rbind (textsize r text fnt) (fun sz =>
       let text_width := fst sz in
       Ok ((canvas_width - text_width) / 2))).

(** Lines 118-122: the measured width of a string, precise call first. *)
Definition measure_width (r : Renderer) (text : string) (fnt : font)
  : result Z :=
  try_pure
    (rbind (textbbox r text fnt) (fun bbox =>
       let '(x0, _, x1, _) := bbox in Ok (x1 - x0)))
    (rbind (textsize r text fnt) (fun sz => Ok (fst sz))).

Definition corner_size : Z := 50.

Definition corners (w h : Z) : list point :=
  [ (50, 50); (w - 50 - corner_size, 50);
    (50, h - 50 - corner_size); (w - 50 - corner_size, h - 50 - corner_size) ].

(** The body of the loop of lines 155-166 for one corner. *)
Definition draw_corner (r : Renderer) (img : Image) (corner : point)
  : result Image :=
  try_pure
    (draw_arc r img
       (corner, (fst corner + corner_size, snd corner + corner_size))
       0 90 accent_color 3)
    (Ok (draw_rectangle img (corner, (fst corner + 10, snd corner + 10))
           (Some accent_color) None 1)).

Fixpoint draw_corners (r : Renderer) (img : Image) (cs : list point)
  : result Image :=
  match cs with
  | [] => Ok img
  | corner :: rest =>
      rbind (draw_corner r img corner) (fun img' => draw_corners r img' rest)
  end.

(** The drawing part of [create_korean_poster], lines 72-175, for a canvas of
    [w] by [h] pixels. *)
Definition draw_poster (r : Renderer) (w h : Z)
  (fonts : font * font * font * font) : result Image :=
  let '(title_font, subtitle_font, body_font, small_font) := fonts in
  let image := Image_new (w, h) background_color in
  rbind (get_centered_x r w event_title title_font) (fun title_x =>
  let title_y := 100 in
  let image := draw_text image (title_x, title_y) event_title title_color
                 title_font None in
  let line_y := title_y + 100 in
  let image := draw_rectangle image ((50, line_y), (w - 50, line_y + 5))
                 (Some accent_color) None 1 in
  let date_y := line_y + 60 in
  rbind (get_centered_x r w event_date subtitle_font) (fun date_x =>
  let image := draw_text image (date_x, date_y) event_date accent_color
                 subtitle_font None in
  let time_y := date_y + 70 in
  rbind (get_centered_x r w event_time body_font) (fun time_x =>
  let image := draw_text image (time_x, time_y) event_time text_color
                 body_font None in
  let location_y := time_y + 120 in
  rbind (get_centered_x r w event_location body_font) (fun location_x =>
  let box_padding := 20 in
  rbind (measure_width r event_location body_font) (fun location_width =>
  let image := draw_rounded_rectangle image
                 ((location_x - box_padding, location_y - box_padding),
                  (location_x + location_width + box_padding,
                   location_y + 50 + box_padding))
                 10 (Some (RGB 245 245 245)) (Some (RGB 200 200 200)) 2 in
  let image := draw_text image (location_x, location_y) event_location
                 text_color body_font None in
  let price_y := location_y + 120 in
  rbind (get_centered_x r w event_price small_font) (fun price_x =>
  let image := draw_text image (price_x, price_y) event_price text_color
                 small_font None in
  rbind (draw_corners r image (corners w h)) (fun image =>
  let bottom_line_y := h - 100 in
  let image := draw_rectangle image
                 ((50, bottom_line_y), (w - 50, bottom_line_y + 3))
                 (Some accent_color) None 1 in
  Ok image))))))).

Definition create_korean_poster (h : Host) (r : Renderer) : M Image :=
  fonts <- setup_fonts h ;;
  lift (draw_poster r width height fonts).

Definition output_path : string := "korean_kpop_festival_poster.png".

(** Lines 177-182: [poster.save(output_path, "PNG", quality=95)]. *)
Definition main (h : Host) (r : Renderer) : M unit :=
  poster <- create_korean_poster h r ;;
  save h output_path poster.

End CreateTestPoster.

(** ** create-test-image.py *)

Module CreateTestImage.

Definition font_paths : list string :=
  [ "/System/Library/Fonts/AppleSDGothicNeo.ttc";
    "/Library/Fonts/AppleGothicRegular.ttf";
    "/System/Library/Fonts/Helvetica.ttc" ].

(** Lines 18-33, for a candidate list [paths] and a size [sz] (the script has
    [font_paths] and 40). *)
Definition resolve_font (h : Host) (paths : list string) (sz : Z) : M font :=
  try_except
    (f <- find_font h paths sz ;; ret (or_default f))
    (ret load_default).

(** Lines 36-39 *)
Fixpoint draw_lines (img : Image) (fnt : font) (text_color : color)
  (y_position : Z) (lines : list string) : Image :=
  match lines with
  | [] => img
  | line :: rest =>
      draw_lines (draw_text img (50, y_position) line text_color fnt None)
        fnt text_color (y_position + 60) rest
  end.

Definition create_test_image (rt : Runtime) (h : Host) (text filename : string)
  (sz : Z * Z) (bg_color text_color : color) : M unit :=
  _ <- lift (new_image rt sz bg_color) ;;
  fnt <- resolve_font h font_paths 40 ;;
  let img := draw_lines (Image_new sz bg_color) fnt text_color 50
               (split_nl text) in
  _ <- lift (play rt (commands img)) ;;
  _ <- save_by_extension rt h filename img ;;
  _ <- lift (print_line rt ("✅ Created: " ++ filename)%string) ;;
  ret tt.

(** Lines 46-118 *)
Definition test_cases : list (string * string) :=
  [
    ("2024 연말 송년회

일시: 2024년 12월 20일 금요일
시간: 오후 7시 - 10시
장소: 강남역 5번 출구 파티홀
참가비: 3만원

드레스코드: 캐주얼
문의: 010-1234-5678",
     "test-images/year_end_party.png");
    ("K-POP 콘서트

2024년 11월 15일 (토)
오후 8시 시작
잠실 올림픽 주경기장

티켓 가격:
VIP석: 150,000원
R석: 120,000원
S석: 80,000원

예매: 인터파크 티켓",
     "test-images/concert.png");
    ("제5회 AI 컨퍼런스

주제: 생성형 AI의 미래
날짜: 2024년 10월 25일
시간: 09:00 - 18:00
장소: 코엑스 컨벤션센터 3층

등록 마감: 10월 20일
참가비: 무료 (사전등록 필수)
홈페이지: www.aiconference2024.kr",
     "test-images/conference.png");
    ("웨딩 초대장

김철수 ♥ 이영희

2024년 9월 28일 토요일
낮 12시 30분

더 라움 웨딩홀 2층
서울시 서초구 서초대로 123

축하화환 대신 축의금으로
마음을 전달해 주세요",
     "test-images/wedding_invitation.png");
    ("요가 클래스

매주 화요일, 목요일
오전 10시 - 11시

장소: 판교 테크노밸리 
      휘트니스센터 3층

수강료: 월 8만원
준비물: 요가매트, 수건

강사: 김요가 선생님
문의: 031-123-4567",
     "test-images/yoga_class.png") ].

(** Lines 121-122: the loop over the test cases, with the default size and
    colours of [create_test_image]. *)
Fixpoint run_test_cases (rt : Runtime) (h : Host)
  (cases : list (string * string)) : M unit :=
  match cases with
  | [] => ret tt
  | test_case :: rest =>
      _ <- create_test_image rt h (fst test_case) (snd test_case) (800, 600)
             (Named "white") (Named "black") ;;
      run_test_cases rt h rest
  end.

Definition all_created : string := "
✨ All test images created successfully!".

Definition saved_in : string := "📁 Test images saved in: ./test-images/".

(** Lines 121-125: the loop over the test cases and the closing messages. *)
Definition script (rt : Runtime) (h : Host) : M unit :=
  _ <- run_test_cases rt h test_cases ;;
  _ <- lift (print_line rt all_created) ;;
  lift (print_line rt saved_in).

End CreateTestImage.

(** ** create-test-event-image.py *)

Module CreateTestEventImage.

(** *** create_test_event_image *)

Definition event_font_paths : list string :=
  [ "/System/Library/Fonts/AppleSDGothicNeo.ttc";
    "/System/Library/Fonts/Helvetica.ttc";
    "/usr/share/fonts/truetype/nanum/NanumGothic.ttf";
    "/usr/share/fonts/truetype/liberation/LiberationSans-Regular.ttf";
    "C:\Windows\Fonts\malgun.ttf";
    "C:\Windows\Fonts\Arial.ttf" ].

(** [ImageFont.truetype(font.path, size) if hasattr(font, 'path') else font] *)
Definition resized (h : Host) (f : font) (sz : Z) : M font :=
  if has_path f then truetype h (font_path f) sz else ret f.

(** Lines 20-47, for a candidate list [paths]: (title_font, body_font). *)
Definition event_fonts (h : Host) (paths : list string) : M (font * font) :=
  try_except
    (f <- find_font h paths 32 ;;
     let fnt := or_default f in
     let title_font := fnt in
     body_font <- resized h fnt 24 ;;
     ret (title_font, body_font))
    (ret (load_default, load_default)).

Definition details : list string :=
  [ "";
    "📅 날짜: 2025년 2월 15일 (토요일)";
    "⏰ 시간: 오후 2:00 - 6:00";
    "📍 장소: 코엑스 컨퍼런스홀 3층";
    "";
    "주요 내용:";
    "• Next.js 15의 새로운 기능";
    "• AI와 웹 개발의 미래";
    "• 실시간 협업 도구 구축";
    "";
    "참가비: 무료 (사전 등록 필수)";
    "문의: dev@conference.kr" ].

(** Lines 73-75: the loop over the detail lines, from [y_position]. *)
Fixpoint draw_details (img : Image) (body_font : font) (y_position : Z)
  (lines : list string) : Image :=
  match lines with
  | [] => img
  | line :: rest =>
      draw_details
        (draw_text img (50, y_position) line (Named "black") body_font None)
        body_font (y_position + 35) rest
  end.

(** Lines 49-75 on a fresh image, for the detail lines [lines]. *)
Definition event_image (title_font body_font : font) (lines : list string)
  : Image :=
  let width := 800 in
  let height := 600 in
  let image := Image_new (width, height) (Named "white") in
  let image := draw_rectangle image ((20, 20), (width - 20, height - 20))
                 None (Some (Named "black")) 2 in
  let title := "2025 개발자 컨퍼런스" in
  let image := draw_text image (50, 50) title (Named "black") title_font
                 None in
  draw_details image body_font 120 lines.

Definition create_test_event_image (rt : Runtime) (h : Host) (filename : string)
  : M string :=
  _ <- lift (new_image rt (800, 600) (Named "white")) ;;
  fonts <- event_fonts h event_font_paths ;;
  let image := event_image (fst fonts) (snd fonts) details in
  _ <- lift (play rt (commands image)) ;;
  _ <- save_by_extension rt h filename image ;;
  _ <- lift (print_line rt ("Test event image created: " ++ filename)%string) ;;
  ret filename.

(** *** create_concert_poster *)

Definition concert_font_paths : list string :=
  [ "/System/Library/Fonts/AppleSDGothicNeo.ttc";
    "/System/Library/Fonts/Helvetica.ttc";
    "/usr/share/fonts/truetype/nanum/NanumGothicBold.ttf";
    "C:\Windows\Fonts\malgunbd.ttf" ].

(** Lines 93-118: (title_font, subtitle_font, body_font). *)
Definition concert_fonts (h : Host) (paths : list string)
  : M (font * font * font) :=
  try_except
    (f <- find_font h paths 48 ;;
     let fnt := or_default f in
     let title_font := fnt in
     subtitle_font <- resized h fnt 36 ;;
     body_font <- resized h fnt 28 ;;
     ret (title_font, subtitle_font, body_font))
    (ret (load_default, load_default, load_default)).

Definition concert_info : list string :=
  [ "";
    "2025년 3월 22일 토요일";
    "오후 6:00 - 11:00";
    "";
    "서울 올림픽공원";
    "올림픽홀";
    "";
    "출연 아티스트:";
    "• 아이유";
    "• BTS";
    "• NewJeans";
    "• 악뮤";
    "";
    "티켓 오픈:";
    "2025년 2월 1일 오후 2시";
    "";
    "가격: 99,000원 ~ 150,000원";
    "";
    "예매: www.springfest.kr" ].

Definition accent : color := Named "#f39c12".

(** Line 153 *)
Definition x_position (width : Z) (line : string) : Z :=
  if startswith line "•" then 50 else width / 2 - 150.

(** Line 154 *)
Definition line_color (line : string) : color :=
  if str_in "티켓" line || str_in "가격" line then accent else Named "white".

(** Lines 152-156 *)
Fixpoint draw_concert_info (img : Image) (width : Z) (body_font : font)
  (y_position : Z) (lines : list string) : Image :=
  match lines with
  | [] => img
  | line :: rest =>
      draw_concert_info
        (draw_text img (x_position width line, y_position) line
           (line_color line) body_font None)
        width body_font (y_position + 40) rest
  end.

(** Lines 120-156 on a fresh image, for the detail lines [lines]. *)
Definition concert_image (fonts : font * font * font) (lines : list string)
  : Image :=
  let '(title_font, subtitle_font, body_font) := fonts in
  let width := 800 in
  let height := 1000 in
  let image := Image_new (width, height) (Named "#1a1a2e") in
  let image := draw_rectangle image ((30, 30), (width - 30, height - 30))
                 None (Some accent) 3 in
  let image := draw_text image (width / 2 - 150, 80) "SPRING" accent
                 title_font None in
  let image := draw_text image (width / 2 - 180, 140) "MUSIC FESTIVAL" accent
                 subtitle_font None in
  let image := draw_text image (width / 2 - 100, 200) "2025" (Named "white")
                 subtitle_font None in
  draw_concert_info image width body_font 300 lines.

Definition create_concert_poster (rt : Runtime) (h : Host) (filename : string)
  : M string :=
  _ <- lift (new_image rt (800, 1000) (Named "#1a1a2e")) ;;
  fonts <- concert_fonts h concert_font_paths ;;
  let image := concert_image fonts concert_info in
  _ <- lift (play rt (commands image)) ;;
  _ <- save_by_extension rt h filename image ;;
  _ <- lift (print_line rt ("Concert poster created: " ++ filename)%string) ;;
  ret filename.

(** *** create_meeting_notice *)

Definition meeting_font_paths : list string :=
  [ "/System/Library/Fonts/AppleSDGothicNeo.ttc";
    "/usr/share/fonts/truetype/nanum/NanumGothic.ttf";
    "C:\Windows\Fonts\malgun.ttf" ].

(** Lines 174-196: (title_font, body_font). *)
Definition meeting_fonts (h : Host) (paths : list string) : M (font * font) :=
  try_except
    (f <- find_font h paths 24 ;;
     let fnt := or_default f in
     title_font <- resized h fnt 28 ;;
     let body_font := fnt in
     ret (title_font, body_font))
    (ret (load_default, load_default)).

Definition meeting_info : list string :=
  [ "프로젝트 킥오프 미팅";
    "";
    "일시: 2025년 1월 20일 월요일 오전 10:00";
    "장소: 본사 회의실 A (5층)";
    "참석자: 개발팀 전원";
    "";
    "안건:";
    "1. 프로젝트 목표 및 일정 공유";
    "2. 역할 분담";
    "3. 기술 스택 결정";
    "";
    "준비사항: 개인 노트북 지참" ].

(** [line[0].isdigit()] for a line whose first character is ASCII or is not
    a digit of another script, as all lines of [meeting_info] are. *)
Definition first_isdigit (line : string) : bool :=
  match line with
  | EmptyString => false
  | String c _ => ((48 <=? Z.of_nat (nat_of_ascii c))%Z &&
                   (Z.of_nat (nat_of_ascii c) <=? 57)%Z)%bool
  end.

(** Line 220 *)
Definition meeting_color (line : string) : color :=
  if negb (String.eqb line "") && negb (first_isdigit line)
     && negb (str_in "안건" line)
  then Named "#2c3e50" else Named "#555555".

(** Lines 219-222 *)
Fixpoint draw_meeting_info (img : Image) (body_font : font) (y_position : Z)
  (lines : list string) : Image :=
  match lines with
  | [] => img
  | line :: rest =>
      draw_meeting_info
        (draw_text img (30, y_position) line (meeting_color line) body_font
           None)
        body_font (y_position + 25) rest
  end.

Definition meeting_image (title_font body_font : font) (lines : list string)
  : Image :=
  let width := 600 in
  let height := 400 in
  let image := Image_new (width, height) (Named "white") in
  let image := draw_rectangle image ((0, 0), (width, 80))
                 (Some (Named "#2c3e50")) None 1 in
  let image := draw_text image (width / 2 - 80, 25) "회의 안내"
                 (Named "white") title_font None in
  draw_meeting_info image body_font 100 lines.

Definition create_meeting_notice (rt : Runtime) (h : Host) (filename : string)
  : M string :=
  _ <- lift (new_image rt (600, 400) (Named "white")) ;;
  fonts <- meeting_fonts h meeting_font_paths ;;
  let image := meeting_image (fst fonts) (snd fonts) meeting_info in
  _ <- lift (play rt (commands image)) ;;
  _ <- save_by_extension rt h filename image ;;
  _ <- lift (print_line rt ("Meeting notice created: " ++ filename)%string) ;;
  ret filename.

(** *** The script body, lines 230-237 *)
Definition all_created : string := "
All test images created successfully!".

Definition upload_hint : string :=
  "You can now upload these images to test the calendar event extraction.".

(** Lines 230-240 *)
Definition main (rt : Runtime) (h : Host) : M unit :=
  _ <- makedirs h "test-images" ;;
  _ <- create_test_event_image rt h "test-images/conference.png" ;;
  _ <- create_concert_poster rt h "test-images/concert.png" ;;
  _ <- create_meeting_notice rt h "test-images/meeting.png" ;;
  _ <- lift (print_line rt all_created) ;;
  lift (print_line rt upload_hint).

End CreateTestEventImage.

(** ** test-images/test-event.py *)

Module TestEvent.

Definition helvetica : string := "/System/Library/Fonts/Helvetica.ttc".

(** Lines 16-25: (title_font, body_font, small_font). *)
Definition setup_fonts (h : Host) : M (font * font * font) :=
  try_except
    (title_font <- truetype h helvetica 48 ;;
     body_font <- truetype h helvetica 32 ;;
     small_font <- truetype h helvetica 24 ;;
     ret (title_font, body_font, small_font))
    (ret (load_default, load_default, load_default)).

Definition black : color := RGB 0 0 0.
Definition blue : color := RGB 0 100 200.
Definition gray : color := RGB 100 100 100.

Definition mt : option string := Some "mt".

(** Lines 11-82: the draw calls, in order. *)
Definition event_image (fonts : font * font * font) : Image :=
  let '(title_font, body_font, small_font) := fonts in
  let width := 800 in
  let height := 600 in
  let image := Image_new (width, height) (Named "white") in
  let y_position := 50 in
  let image := draw_text image (width / 2, y_position) "TECH CONFERENCE 2025"
                 blue title_font mt in
  let y_position := y_position + 80 in
  let image := draw_line image (100, y_position) (width - 100, y_position)
                 gray 2 in
  let y_position := y_position + 40 in
  let image := draw_text image (width / 2, y_position)
                 "Date: December 15, 2025" black body_font mt in
  let y_position := y_position + 50 in
  let image := draw_text image (width / 2, y_position)
                 "Time: 2:00 PM - 6:00 PM" black body_font mt in
  let y_position := y_position + 50 in
  let image := draw_text image (width / 2, y_position)
                 "Location: COEX Convention Center" black body_font mt in
  let y_position := y_position + 50 in
  let image := draw_text image (width / 2, y_position) "Seoul, South Korea"
                 gray small_font mt in
  let y_position := y_position + 60 in
  let image := draw_line image (100, y_position) (width - 100, y_position)
                 gray 2 in
  let y_position := y_position + 40 in
  let image := draw_text image (width / 2, y_position)
                 "Join us for the biggest tech event of the year!" black
                 small_font mt in
  let y_position := y_position + 40 in
  let image := draw_text image (width / 2, y_position)
                 "• AI & Machine Learning" black small_font mt in
  let y_position := y_position + 35 in
  let image := draw_text image (width / 2, y_position) "• Cloud Computing"
                 black small_font mt in
  let y_position := y_position + 35 in
  let image := draw_text image (width / 2, y_position) "• Web Development"
                 black small_font mt in
  image.

(** [script_dir] is [os.path.dirname(os.path.abspath(__file__))]. *)
Definition create_test_event_image (rt : Runtime) (h : Host)
  (script_dir : string) : M string :=
  _ <- lift (new_image rt (800, 600) (Named "white")) ;;
  fonts <- setup_fonts h ;;
  let image := event_image fonts in
  _ <- lift (play rt (commands image)) ;;
  let output_path := path_join script_dir "tech-conference-2025.png" in
  _ <- save h output_path image ;;
  _ <- lift (print_line rt ("Test event image created: " ++ output_path)%string) ;;
  ret output_path.

End TestEvent.

(** ** scripts/create-oauth-client.py *)

Module CreateOauthClient.

(** What the script leaves behind: the arguments of its [print] calls and
    the shell commands it ran, both in order. *)
Record Console : Type := mkConsole {
  printed : list string;
  commands_run : list string
}.

(** How [main] ends: by returning, or by [sys.exit(code)]. *)
Inductive outcome : Type :=
| Returned
| Exited (code : Z).

Definition nl : string := String "010" EmptyString.

(** [s * n] *)
Fixpoint repeat_str (s : string) (n : nat) : string :=
  match n with
  | O => EmptyString
  | S n' => s ++ repeat_str s n'
  end.

Definition print (c : Console) (line : string) : Console :=
  mkConsole (printed c ++ [line]) (commands_run c).

Definition print_all (c : Console) (lines : list string) : Console :=
  fold_left print lines c.

Definition project_id : string := "photo-calendar-20250811-150939".

Definition redirect_uris : list string :=
  [ "https://photo-calendar.vercel.app/api/auth/callback/google";
    "https://photo-calendar-dentalkings-projects.vercel.app/api/auth/callback/google";
    "http://localhost:3000/api/auth/callback/google" ].

Definition javascript_origins : list string :=
  [ "https://photo-calendar.vercel.app";
    "https://photo-calendar-dentalkings-projects.vercel.app";
    "http://localhost:3000" ].

Definition set_project_cmd : string :=
  "gcloud config set project " ++ project_id.

Definition consent_cmd : string :=
  "gcloud alpha iap oauth-brands list --project=" ++ project_id ++
  " --format=json 2>/dev/null".

(** Lines 32-41 *)
Definition consent_guidance : list string :=
  [ "   ⚠️  OAuth Consent Screen이 설정되지 않았습니다.";
    "   📌 Google Cloud Console에서 직접 설정해주세요:";
    ("      https://console.cloud.google.com/apis/credentials/consent?project="
       ++ project_id)%string;
    (nl ++ "   설정 방법:")%string;
    "   1. User Type: External 선택";
    "   2. App name: Photo Calendar";
    "   3. User support email: 본인 이메일";
    "   4. Developer contact: 본인 이메일";
    "   5. Save and Continue";
    (nl ++ "   설정 후 이 스크립트를 다시 실행하세요.")%string ].

(** Lines 45-96 *)
Definition client_guidance : list string :=
  ([ (nl ++ "3. 기존 OAuth 2.0 Client 확인...")%string;
     (nl ++ "4. OAuth 2.0 Client 생성 안내")%string;
     repeat_str "=" 50;
     (nl ++ "📌 Google Cloud Console에서 OAuth 2.0 Client를 생성하세요:")%string;
     ("   https://console.cloud.google.com/apis/credentials?project="
        ++ project_id)%string;
     (nl ++ "설정 방법:")%string;
     "1. '+ CREATE CREDENTIALS' → 'OAuth client ID' 클릭";
     "2. Application type: 'Web application' 선택";
     "3. Name: 'Photo Calendar Web Client' 입력";
     (nl ++ "4. Authorized JavaScript origins 추가:")%string ]
   ++ map (fun origin => ("   • " ++ origin)%string) javascript_origins
   ++ [ (nl ++ "5. Authorized redirect URIs 추가:")%string ]
   ++ map (fun uri => ("   • " ++ uri)%string) redirect_uris
   ++ [ (nl ++ "6. 'CREATE' 클릭")%string;
        "7. Client ID와 Client Secret 복사";
        (nl ++ repeat_str "=" 50)%string;
        "📝 복사한 정보로 Vercel 환경 변수 업데이트:";
        (nl ++ "# Client ID 업데이트")%string;
        "vercel env rm GOOGLE_CLIENT_ID production --yes";
        "vercel env add GOOGLE_CLIENT_ID production";
        (nl ++ "# Client Secret 업데이트")%string;
        "vercel env rm GOOGLE_CLIENT_SECRET production --yes";
        "vercel env add GOOGLE_CLIENT_SECRET production";
        (nl ++ "# 재배포")%string;
        "vercel --prod";
        (nl ++ "✅ 설정 완료 후 https://photo-calendar.vercel.app/auth/signin 에서 테스트하세요.")%string ])%list.

Section Script.

(** [subprocess.run(cmd, shell=True, capture_output=True, text=True)]: the
    captured stdout and the return code, or the text of the exception the
    call raises. *)
Variable subprocess_run : string -> (string * Z) + string.

(** [str.strip()] *)
Variable strip : string -> string.

(** Lines 7-14 *)
Definition run_command (cmd : string) (c : Console)
  : (option string * Z) * Console :=
  let c := mkConsole (printed c) (commands_run c ++ [cmd]) in
  match subprocess_run cmd with
  | inl (stdout, returncode) => ((Some (strip stdout), returncode), c)
  | inr e => ((None, 1), print c ("Error running command: " ++ e))
  end.

(** [returncode != 0 or not output or output == "[]"] *)
Definition consent_missing (output : option string) (returncode : Z) : bool :=
  negb (returncode =? 0)%Z ||
  match output with
  | None => true
  | Some s => String.eqb s "" || String.eqb s "[]"
  end.

(** Lines 16-96 *)
Definition main (c : Console) : outcome * Console :=
  let c := print c "🔧 Google OAuth 2.0 Client 생성 스크립트" in
  let c := print c (repeat_str "=" 50) in
  let c := print c (nl ++ "1. 프로젝트 설정: " ++ project_id) in
  let c := snd (run_command set_project_cmd c) in
  let c := print c (nl ++ "2. OAuth Consent Screen 설정 확인...") in
  let '((output, returncode), c) := run_command consent_cmd c in
  if consent_missing output returncode
  then (Exited 1, print_all c consent_guidance)
  else (Returned, print_all c client_guidance).

End Script.

End CreateOauthClient.

(** ** The statements of the specification that are compared with the code *)

(** The resolver as the specification words it: a candidate whose load fails
    is skipped and the next candidate is tried. *)
Fixpoint resolve_font_spec (h : Host) (paths : list string) (sz : Z) : font :=
  match paths with
  | [] => load_default
  | p :: rest =>
      if path_exists h p && loadable h p sz then FreeTypeFont p sz
      else resolve_font_spec h rest sz
  end.

(** The centred abscissa as the specification words it: clamped at 0. *)
Definition centered_x_spec (canvas_width measured_width : Z) : Z :=
  Z.max 0 ((canvas_width - measured_width) / 2).

(** The payload is drawn, that is, not blank. *)
Definition visible (c : DrawCommand) : bool :=
  match c with
  | Text _ text _ _ _ => negb (String.eqb text "")
  | _ => true
  end.

Definition text_xy (c : DrawCommand) : option point :=
  match c with
  | Text xy _ _ _ _ => Some xy
  | _ => None
  end.

(** ** Sample hosts, renderers and process states *)


Definition all_fonts : Host :=
  mkHost (fun _ => true) (fun _ _ => true) (fun _ => true).

(** Every candidate exists; only Helvetica loads. *)
Definition broken_first : Host :=
  mkHost (fun _ => true)
    (fun p _ => String.eqb p "/System/Library/Fonts/Helvetica.ttc")
    (fun _ => true).


(** Every candidate exists and loads at 32 points, at no other size. *)
Definition title_size_only : Host :=
  mkHost (fun _ => true) (fun _ sz => (sz =? 32)%Z) (fun _ => true).

Definition empty_world : World := mkWorld [] [] [] [].

(** A renderer with the precise call only; [n] pixels per byte of the text. *)
Definition bbox_renderer (n : Z) : Renderer :=
  mkRenderer
    (fun text _ => Ok (0, 0, n * Z.of_nat (String.length text), 10))
    (fun _ _ => Raise AttributeError)
    (fun _ => true).

(** An older renderer: no [textbbox], no [arc]. *)
Definition old_renderer (n : Z) : Renderer :=
  mkRenderer
    (fun _ _ => Raise AttributeError)
    (fun text _ => Ok (n * Z.of_nat (String.length text), 10))
    (fun _ => false).

Fixpoint is_ascii (s : string) : bool :=
  match s with
  | EmptyString => true
  | String c t => (Z.of_nat (nat_of_ascii c) <? 128)%Z && is_ascii t
  end.

(** A renderer after Pillow 8 and 9: [textbbox] is for TrueType fonts only,
    and the built-in bitmap font measures no text outside its one-byte
    encoding. *)
Definition bitmap_default_renderer : Renderer :=
  mkRenderer
    (fun text fnt =>
       match fnt with
       | FreeTypeFont _ sz => Ok (0, 0, sz * Z.of_nat (String.length text), sz)
       | DefaultFont => Raise ValueError
       end)
    (fun text fnt =>
       match fnt with
       | FreeTypeFont _ sz => Ok (sz * Z.of_nat (String.length text), sz)
       | DefaultFont =>
           if is_ascii text then Ok (6 * Z.of_nat (String.length text), 11)
           else Raise UnicodeEncodeError
       end)
    (fun _ => true).

Definition claim_lines : list string :=
  [ ""; "Date: 2025-02-15"; "Location: Hall A" ].

(** What the loop of lines 155-166 of create_test_poster.py leaves on the
    image for one corner: the quarter arc, or the 10-pixel square. *)
Definition corner_command (r : Renderer) (corner : point) : DrawCommand :=
  let b := (corner, (fst corner + CreateTestPoster.corner_size,
                     snd corner + CreateTestPoster.corner_size)) in
  if arc_ok r b then Arc b 0 90 CreateTestPoster.accent_color 3
  else Rectangle (corner, (fst corner + 10, snd corner + 10))
         (Some CreateTestPoster.accent_color) None 1.

(** A computation that leaves directories, files and save calls alone. *)
Definition same_fs (w w' : World) : Prop :=
  dirs w' = dirs w /\ files w' = files w /\ save_calls w' = save_calls w.

Definition fs_inert {A} (m : M A) : Prop := forall w, same_fs w (snd (m w)).

(** A computation that returns, whatever the state. *)
Definition total {A} (m : M A) : Prop := forall w, exists a, fst (m w) = Ok a.

(** A computation whose value does not depend on the process state. *)
Definition state_independent {A} (m : M A) : Prop :=
  forall w1 w2, fst (m w1) = fst (m w2).

(** The commands of a loop that draws one text per line and moves the
    cursor down by [pitch] after each. *)
Fixpoint text_commands (cmd : Z -> string -> DrawCommand) (pitch y : Z)
  (lines : list string) : list DrawCommand :=
  match lines with
  | [] => []
  | line :: rest => cmd y line :: text_commands cmd pitch (y + pitch) rest
  end.

Definition text_payload (c : DrawCommand) : option string :=
  match c with
  | Text _ text _ _ _ => Some text
  | _ => None
  end.

Definition text_fill (c : DrawCommand) : option color :=
  match c with
  | Text _ _ fill _ _ => Some fill
  | _ => None
  end.

Definition text_anchor (c : DrawCommand) : option string :=
  match c with
  | Text _ _ _ _ anchor => anchor
  | _ => None
  end.

(** The two commands the specification expects for [claim_lines]. *)
Definition claimed_commands (fnt : font) : list DrawCommand :=
  [ Text (50, 120) "Date: 2025-02-15" (Named "black") fnt None;
    Text (50, 155) "Location: Hall A" (Named "black") fnt None ].

(** What a generation call does with runtime [rt] on host [h], from the state
    [w]: it creates no directory; when [Image.new] or one of the draw calls
    of the image raises, that error ends the call before any save; otherwise
    [Image.save] is called once on [filename] and raises ValueError for an
    extension that names no format (when the format is taken from the
    extension), FileNotFoundError when the parent directory does not exist,
    PermissionError when it is not writable, nothing being written in these
    cases, or else writes the one file; the call then prints [msg] and
    returns [v], unless the print raises. *)
Definition generation_outcome {A} (rt : Runtime) (h : Host)
  (by_extension : bool) (sz : Z * Z) (bg : color) (img : Image)
  (filename msg : string) (w : World) (v : A) (out : result A * World)
  : Prop :=
  dirs (snd out) = dirs w /\
  match rbind (new_image rt sz bg) (fun _ => play rt (commands img)) with
  | Raise e =>
      fst out = Raise e /\
      save_calls (snd out) = save_calls w /\
      files (snd out) = files w
  | Ok _ =>
      save_calls (snd out) = (save_calls w ++ [filename])%list /\
      if by_extension && negb (format_known rt filename) then
        fst out = Raise ValueError /\ files (snd out) = files w
      else if negb (dir_exists w (dirname filename)) then
        fst out = Raise FileNotFoundError /\ files (snd out) = files w
      else if negb (dir_writable h (dirname filename)) then
        fst out = Raise PermissionError /\ files (snd out) = files w
      else
        fst out = rbind (print_line rt msg) (fun _ => Ok v) /\
        files (snd out) = (filename, img) :: files w
  end.

(** The steps the generators share: the canvas, the fonts, the draw calls of
    the image, the save, the message. *)
Definition generator {F A} (rt : Runtime) (sz : Z * Z) (bg : color)
  (fonts : M F) (mk : F -> Image) (saver : string -> Image -> M unit)
  (filename msg : string) (v : A) : M A :=
  _ <- lift (new_image rt sz bg) ;;
  fs <- fonts ;;
  _ <- lift (play rt (commands (mk fs))) ;;
  _ <- saver filename (mk fs) ;;
  _ <- lift (print_line rt msg) ;;
  ret v.

(** The runtime can produce the image of a generator under the name
    [filename]: the extension names a format, [Image.new] accepts the canvas,
    every draw call completes with the fonts the generator sets up, and the
    message can be printed. *)
Definition generator_ready {F} (rt : Runtime) (fonts : M F) (sz : Z * Z)
  (bg : color) (mk : F -> Image) (filename msg : string) : Prop :=
  format_known rt filename = true /\
  new_image rt sz bg = Ok tt /\
  (forall fs w0, fst (fonts w0) = Ok fs ->
                 play rt (commands (mk fs)) = Ok tt) /\
  print_line rt msg = Ok tt.

Definition event_ready (rt : Runtime) (h : Host) (filename : string) : Prop :=
  generator_ready rt
    (CreateTestEventImage.event_fonts h CreateTestEventImage.event_font_paths)
    (800, 600) (Named "white")
    (fun fonts => CreateTestEventImage.event_image (fst fonts) (snd fonts)
                    CreateTestEventImage.details)
    filename ("Test event image created: " ++ filename).

Definition concert_ready (rt : Runtime) (h : Host) (filename : string)
  : Prop :=
  generator_ready rt
    (CreateTestEventImage.concert_fonts h
       CreateTestEventImage.concert_font_paths)
    (800, 1000) (Named "#1a1a2e")
    (fun fonts => CreateTestEventImage.concert_image fonts
                    CreateTestEventImage.concert_info)
    filename ("Concert poster created: " ++ filename).

Definition meeting_ready (rt : Runtime) (h : Host) (filename : string)
  : Prop :=
  generator_ready rt
    (CreateTestEventImage.meeting_fonts h
       CreateTestEventImage.meeting_font_paths)
    (600, 400) (Named "white")
    (fun fonts => CreateTestEventImage.meeting_image (fst fonts) (snd fonts)
                    CreateTestEventImage.meeting_info)
    filename ("Meeting notice created: " ++ filename).

(** The runtime can produce the three images of the script body of
    create-test-event-image.py and print its closing messages. *)
Definition main_ready (rt : Runtime) (h : Host) : Prop :=
  event_ready rt h "test-images/conference.png" /\
  concert_ready rt h "test-images/concert.png" /\
  meeting_ready rt h "test-images/meeting.png" /\
  print_line rt CreateTestEventImage.all_created = Ok tt /\
  print_line rt CreateTestEventImage.upload_hint = Ok tt.

(** The image create-test-image.py draws for [text] with the font [fnt]. *)
Definition test_image (text : string) (fnt : font) : Image :=
  CreateTestImage.draw_lines (Image_new (800, 600) (Named "white")) fnt
    (Named "black") 50 (split_nl text).


(** The test case the loop of create-test-image.py starts with. *)
Definition first_test_case : string * string :=
  hd ("", "") CreateTestImage.test_cases.

(** [s.endswith(suffix)] *)
Definition endswith (s suffix : string) : bool :=
  String.eqb suffix
    (substring (String.length s - String.length suffix)
       (String.length suffix) s).

(** A runtime whose built-in font is the bitmap one: it draws any text with a
    TrueType font, and with the default font ASCII text only (the font
    encodes Latin-1, of which the generators draw nothing beyond ASCII); it
    accepts every colour and the canvases that are not negative, knows the
    extension .png, and prints every message. *)
Definition bitmap_runtime : Runtime :=
  mkRuntime
    (fun sz _ =>
       if ((0 <=? fst sz)%Z && (0 <=? snd sz)%Z)%bool then Ok tt
       else Raise ValueError)
    (fun c =>
       match c with
       | Text _ text _ DefaultFont _ =>
           if is_ascii text then Ok tt else Raise UnicodeEncodeError
       | _ => Ok tt
       end)
    (fun filename => endswith filename ".png")
    (fun _ => Ok tt).

(** The string can be measured: one of the two measurement calls answers. *)
Definition measurable (r : Renderer) (text : string) (fnt : font) : bool :=
  match CreateTestPoster.measure_width r text fnt with
  | Ok _ => true
  | Raise _ => false
  end.


(** * Properties *)

(** ** The monad *)

Ltac run_m :=
  unfold bind, ret, lift, try_except, truetype in *; simpl in *.

Lemma first_existing_none (h : Host) (paths : list string) :
  (forall p, In p paths -> path_exists h p = false) ->
  first_existing h paths = None.
Proof.
  induction paths as [|p rest IH]; intros Habs; simpl; [reflexivity|].
  rewrite (Habs p (or_introl eq_refl)).
  apply IH. intros q Hq. apply Habs. now right.
Qed.

Lemma first_existing_app (h : Host) (pre : list string) (p : string)
  (post : list string) :
  (forall q, In q pre -> path_exists h q = false) ->
  path_exists h p = true ->
  first_existing h (pre ++ p :: post) = Some p.
Proof.
  induction pre as [|q pre IH]; intros Habs Hp; simpl.
  - now rewrite Hp.
  - rewrite (Habs q (or_introl eq_refl)).
    apply IH; [|exact Hp]. intros q' Hq'. apply Habs. now right.
Qed.

(** The loop stops at the first candidate that exists and calls
    [ImageFont.truetype] on it, once. *)
Lemma find_font_first (h : Host) (paths : list string) (sz : Z) (w : World) :
  find_font h paths sz w =
  match first_existing h paths with
  | None => (Ok None, w)
  | Some p =>
      if loadable h p sz
      then (Ok (Some (FreeTypeFont p sz)), log_truetype w p sz)
      else (Raise OSError, log_truetype w p sz)
  end.
Proof.
  induction paths as [|p rest IH]; simpl; [reflexivity|].
  destruct (path_exists h p); [|exact IH].
  run_m. now destruct (loadable h p sz).
Qed.

Lemma resolve_font_first (h : Host) (paths : list string) (sz : Z)
  (w : World) :
  CreateTestImage.resolve_font h paths sz w =
  match first_existing h paths with
  | None => (Ok DefaultFont, w)
  | Some p =>
      (Ok (if loadable h p sz then FreeTypeFont p sz else DefaultFont),
       log_truetype w p sz)
  end.
Proof.
  unfold CreateTestImage.resolve_font, try_except, bind.
  rewrite find_font_first.
  destruct (first_existing h paths) as [p|]; [|reflexivity].
  now destruct (loadable h p sz).
Qed.

Lemma event_fonts_first (h : Host) (paths : list string) (w : World) :
  CreateTestEventImage.event_fonts h paths w =
  match first_existing h paths with
  | None => (Ok (DefaultFont, DefaultFont), w)
  | Some p =>
      if loadable h p 32 then
        if loadable h p 24
        then (Ok (FreeTypeFont p 32, FreeTypeFont p 24),
              log_truetype (log_truetype w p 32) p 24)
        else (Ok (DefaultFont, DefaultFont),
              log_truetype (log_truetype w p 32) p 24)
      else (Ok (DefaultFont, DefaultFont), log_truetype w p 32)
  end.
Proof.
  unfold CreateTestEventImage.event_fonts, try_except, bind.
  rewrite find_font_first.
  destruct (first_existing h paths) as [p|]; [|reflexivity].
  destruct (loadable h p 32); [|reflexivity].
  unfold CreateTestEventImage.resized; simpl. unfold truetype.
  now destruct (loadable h p 24).
Qed.

(** ** Font resolution *)

(** C3, as the code has it.  Resolution returns a font for every host,
    candidate list, size and state.  When no candidate exists the font is the
    default one and nothing is loaded.  When the first candidate that exists
    fails to load, the error is swallowed and the font is the default one:
    that candidate is the only one [ImageFont.truetype] is called on, the
    candidates after it are not tried.  When it loads, it is the font.  The
    pair of fonts of create_test_event_image behaves the same way, with two
    loads of the first candidate that exists, at 32 and at 24 points: when
    both succeed the pair is that candidate at the two sizes, and when the
    second fails (after the first succeeded) both fonts are the default
    one. *)
Theorem font_resolution_falls_back_to_default :
  forall (h : Host) (sz : Z) (w : World),
    (forall paths, exists f w',
        CreateTestImage.resolve_font h paths sz w = (Ok f, w')) /\
    (forall paths,
        (forall p, In p paths -> path_exists h p = false) ->
        CreateTestImage.resolve_font h paths sz w = (Ok DefaultFont, w)) /\
    (forall pre p post,
        (forall q, In q pre -> path_exists h q = false) ->
        path_exists h p = true ->
        loadable h p sz = false ->
        CreateTestImage.resolve_font h (pre ++ p :: post) sz w =
        (Ok DefaultFont, log_truetype w p sz)) /\
    (forall pre p post,
        (forall q, In q pre -> path_exists h q = false) ->
        path_exists h p = true ->
        loadable h p sz = true ->
        CreateTestImage.resolve_font h (pre ++ p :: post) sz w =
        (Ok (FreeTypeFont p sz), log_truetype w p sz)) /\
    (forall paths, exists fs w',
        CreateTestEventImage.event_fonts h paths w = (Ok fs, w')) /\
    (forall paths,
        (forall p, In p paths -> path_exists h p = false) ->
        CreateTestEventImage.event_fonts h paths w =
        (Ok (DefaultFont, DefaultFont), w)) /\
    (forall pre p post,
        (forall q, In q pre -> path_exists h q = false) ->
        path_exists h p = true ->
        loadable h p 32 = false ->
        CreateTestEventImage.event_fonts h (pre ++ p :: post) w =
        (Ok (DefaultFont, DefaultFont), log_truetype w p 32)) /\
    (forall pre p post,
        (forall q, In q pre -> path_exists h q = false) ->
        path_exists h p = true ->
        loadable h p 32 = true ->
        loadable h p 24 = false ->
        CreateTestEventImage.event_fonts h (pre ++ p :: post) w =
        (Ok (DefaultFont, DefaultFont),
         log_truetype (log_truetype w p 32) p 24)) /\
    (forall pre p post,
        (forall q, In q pre -> path_exists h q = false) ->
        path_exists h p = true ->
        loadable h p 32 = true ->
        loadable h p 24 = true ->
        CreateTestEventImage.event_fonts h (pre ++ p :: post) w =
        (Ok (FreeTypeFont p 32, FreeTypeFont p 24),
         log_truetype (log_truetype w p 32) p 24)).
Proof.
  intros h sz w. repeat split.
  - intros paths. rewrite resolve_font_first.
    destruct (first_existing h paths); eauto.
  - intros paths Habs. rewrite resolve_font_first.
    now rewrite (first_existing_none h paths Habs).
  - intros pre p post Habs Hp Hl. rewrite resolve_font_first.
    rewrite (first_existing_app h pre p post Habs Hp). now rewrite Hl.
  - intros pre p post Habs Hp Hl. rewrite resolve_font_first.
    rewrite (first_existing_app h pre p post Habs Hp). now rewrite Hl.
  - intros paths. rewrite event_fonts_first.
    destruct (first_existing h paths) as [p|]; [|eauto].
    destruct (loadable h p 32); [|eauto].
    destruct (loadable h p 24); eauto.
  - intros paths Habs. rewrite event_fonts_first.
    now rewrite (first_existing_none h paths Habs).
  - intros pre p post Habs Hp Hl. rewrite event_fonts_first.
    rewrite (first_existing_app h pre p post Habs Hp). now rewrite Hl.
  - intros pre p post Habs Hp Hl Hl'. rewrite event_fonts_first.
    rewrite (first_existing_app h pre p post Habs Hp). now rewrite Hl, Hl'.
  - intros pre p post Habs Hp Hl Hl'. rewrite event_fonts_first.
    rewrite (first_existing_app h pre p post Habs Hp). now rewrite Hl, Hl'.
Qed.

(** On a host where the first candidate of create-test-image.py exists but
    does not load, the default font is returned after that one call, although
    a later candidate exists and loads.  On a host where the first candidate
    of create_test_event_image loads at 32 points and not at 24, both fonts
    are the default one, after the two calls. *)
Lemma font_resolution_falls_back_to_default_witness :
  CreateTestImage.resolve_font broken_first CreateTestImage.font_paths 40
    empty_world =
  (Ok DefaultFont,
   log_truetype empty_world "/System/Library/Fonts/AppleSDGothicNeo.ttc" 40)
  /\
  CreateTestEventImage.event_fonts title_size_only
    CreateTestEventImage.event_font_paths empty_world =
  (Ok (DefaultFont, DefaultFont),
   log_truetype
     (log_truetype empty_world "/System/Library/Fonts/AppleSDGothicNeo.ttc"
        32)
     "/System/Library/Fonts/AppleSDGothicNeo.ttc" 24).
Proof.
  split.
  - destruct (font_resolution_falls_back_to_default broken_first 40
                empty_world) as (_ & _ & Hfail & _).
    apply (Hfail [] "/System/Library/Fonts/AppleSDGothicNeo.ttc"
             [ "/Library/Fonts/AppleGothicRegular.ttf";
               "/System/Library/Fonts/Helvetica.ttc" ]).
    + intros q [].
    + reflexivity.
    + reflexivity.
  - destruct (font_resolution_falls_back_to_default title_size_only 40
                empty_world) as (_ & _ & _ & _ & _ & _ & _ & Hsecond & _).
    apply (Hsecond [] "/System/Library/Fonts/AppleSDGothicNeo.ttc"
             (tl CreateTestEventImage.event_font_paths)).
    + intros q [].
    + reflexivity.
    + reflexivity.
    + reflexivity.
Defined.

(** C3 as stated does not hold: the resolver of the code is not the one that
    skips a candidate whose load fails and tries the next. *)
Lemma font_resolution_abandons_candidates :
  ~ (forall (h : Host) (paths : list string) (sz : Z) (w : World),
        fst (CreateTestImage.resolve_font h paths sz w) =
        Ok (resolve_font_spec h paths sz)).
Proof.
  intros H.
  specialize (H broken_first CreateTestImage.font_paths 40 empty_world).
  vm_compute in H. discriminate H.
Qed.

(** C8.  The font a resolution returns depends on the host facts, the
    candidate list and the size only: it is the same from any two process
    states, hence the same when the resolution is repeated, also with other
    resolutions in between. *)
Theorem font_resolution_deterministic :
  forall (h : Host) (paths : list string) (sz : Z),
    state_independent (CreateTestImage.resolve_font h paths sz) /\
    state_independent (CreateTestEventImage.event_fonts h paths) /\
    (forall (paths' : list string) (sz' : Z) (w : World),
        let r1 := CreateTestImage.resolve_font h paths sz w in
        let r2 := CreateTestImage.resolve_font h paths' sz' (snd r1) in
        let r3 := CreateTestImage.resolve_font h paths sz (snd r2) in
        fst r3 = fst r1) /\
    (forall (paths' : list string) (w : World),
        let r1 := CreateTestEventImage.event_fonts h paths w in
        let r2 := CreateTestEventImage.event_fonts h paths' (snd r1) in
        let r3 := CreateTestEventImage.event_fonts h paths (snd r2) in
        fst r3 = fst r1).
Proof.
  intros h paths sz.
  assert (H1 : state_independent (CreateTestImage.resolve_font h paths sz)).
  { intros w1 w2. rewrite !resolve_font_first.
    now destruct (first_existing h paths). }
  assert (H2 : state_independent (CreateTestEventImage.event_fonts h paths)).
  { intros w1 w2. rewrite !event_fonts_first.
    destruct (first_existing h paths) as [p|]; [|reflexivity].
    destruct (loadable h p 32); [|reflexivity].
    now destruct (loadable h p 24). }
  repeat split; try assumption.
  - intros paths' sz' w r1 r2 r3. apply H1.
  - intros paths' w r1 r2 r3. apply H2.
Qed.

(** ** Text measurement and centring (create_test_poster.py) *)

Lemma centered_x_of_width (r : Renderer) (cw : Z) (text : string)
  (fnt : font) :
  CreateTestPoster.get_centered_x r cw text fnt =
  rbind (CreateTestPoster.measure_width r text fnt)
    (fun tw => Ok ((cw - tw) / 2)).
Proof.
  unfold CreateTestPoster.get_centered_x, CreateTestPoster.measure_width.
  destruct (textbbox r text fnt) as [[[[x0 y0] x1] y1]|e]; simpl;
    [reflexivity|].
  now destruct (textsize r text fnt) as [[tw ht]|e'].
Qed.

Lemma half_gap_bounds (cw tw : Z) :
  (tw <= cw -> 0 <= (cw - tw) / 2 <= cw - tw) /\
  (cw < tw -> (cw - tw) / 2 < 0).
Proof.
  split; intros H.
  - split.
    + apply Z.div_pos; lia.
    + apply Z.div_le_upper_bound; lia.
  - apply Z.div_lt_upper_bound; lia.
Qed.

(** C1, as the code has it.  When the string measures [tw] pixels the
    centring routine returns the floor of half the gap, [(cw - tw) // 2]:
    between 0 and [cw - tw] when the string fits the canvas, and negative,
    not clamped, when the string is wider than the canvas. *)
Theorem centered_x_is_half_gap :
  forall (r : Renderer) (cw : Z) (text : string) (fnt : font) (tw : Z),
    CreateTestPoster.measure_width r text fnt = Ok tw ->
    CreateTestPoster.get_centered_x r cw text fnt = Ok ((cw - tw) / 2) /\
    (tw <= cw -> 0 <= (cw - tw) / 2 <= cw - tw) /\
    (cw < tw -> (cw - tw) / 2 < 0).
Proof.
  intros r cw text fnt tw Hm. split.
  - rewrite centered_x_of_width, Hm. reflexivity.
  - apply half_gap_bounds.
Qed.

Lemma centered_x_is_half_gap_witness :
  CreateTestPoster.get_centered_x (bbox_renderer 10) 800 "2025" DefaultFont =
  Ok 380 /\ 0 <= 380 <= 800 - 40.
Proof.
  destruct (centered_x_is_half_gap (bbox_renderer 10) 800 "2025" DefaultFont
              40 eq_refl) as (Hx & Hfit & _).
  split; [exact Hx|]. apply Hfit. lia.
Defined.

(** C1 as stated does not hold.  With a renderer that measures the title
    1380 pixels wide on the 800-pixel canvas the routine returns -290 where
    the clamped abscissa is 0, and the poster gets the title drawn at
    x = -290. *)
Lemma centered_x_not_clamped :
  CreateTestPoster.measure_width (bbox_renderer 60)
    CreateTestPoster.event_title DefaultFont = Ok 1380 /\
  CreateTestPoster.get_centered_x (bbox_renderer 60) 800
    CreateTestPoster.event_title DefaultFont = Ok (-290) /\
  centered_x_spec 800 1380 = 0 /\
  exists img,
    CreateTestPoster.draw_poster (bbox_renderer 60) 800 1200
      CreateTestPoster.all_default = Ok img /\
    nth_error (commands img) 0 =
    Some (Text (-290, 100) CreateTestPoster.event_title
            CreateTestPoster.title_color DefaultFont None).
Proof.
  repeat split; try reflexivity.
  eexists. split; vm_compute; reflexivity.
Qed.

(** C7, as the code has it.  When [textbbox] answers, the width is the one
    of its box.  When [textbbox] is missing or fails, its error is swallowed
    and measurement falls over to [textsize]: centring returns with the width
    [textsize] reports.  When [textsize] raises as well, that error reaches
    the caller. *)
Theorem text_measurement_fails_over :
  forall (r : Renderer) (cw : Z) (text : string) (fnt : font),
    (forall x0 y0 x1 y1,
        textbbox r text fnt = Ok (x0, y0, x1, y1) ->
        CreateTestPoster.measure_width r text fnt = Ok (x1 - x0) /\
        CreateTestPoster.get_centered_x r cw text fnt =
        Ok ((cw - (x1 - x0)) / 2)) /\
    (forall e tw ht,
        textbbox r text fnt = Raise e ->
        textsize r text fnt = Ok (tw, ht) ->
        CreateTestPoster.measure_width r text fnt = Ok tw /\
        CreateTestPoster.get_centered_x r cw text fnt = Ok ((cw - tw) / 2)) /\
    (forall e e',
        textbbox r text fnt = Raise e ->
        textsize r text fnt = Raise e' ->
        CreateTestPoster.measure_width r text fnt = Raise e' /\
        CreateTestPoster.get_centered_x r cw text fnt = Raise e').
Proof.
  intros r cw text fnt. rewrite centered_x_of_width.
  unfold CreateTestPoster.measure_width.
  repeat split; intros; 
    repeat match goal with H : _ = _ |- _ => rewrite H end; reflexivity.
Qed.

Lemma text_measurement_fails_over_witness :
  CreateTestPoster.measure_width (old_renderer 10)
    CreateTestPoster.event_time DefaultFont = Ok 170 /\
  CreateTestPoster.get_centered_x (old_renderer 10) 800
    CreateTestPoster.event_time DefaultFont = Ok ((800 - 170) / 2).
Proof.
  destruct (text_measurement_fails_over (old_renderer 10) 800
              CreateTestPoster.event_time DefaultFont) as (_ & Hover & _).
  exact (Hover AttributeError 170 10 eq_refl eq_refl).
Defined.

(** C7 as stated does not hold: measurement is not total.  On a renderer
    where [textbbox] refuses the default font and [textsize] cannot encode
    the Korean title for it, centring raises, and so does the drawing of the
    poster with the default fonts. *)
Lemma text_measurement_not_total :
  textbbox bitmap_default_renderer CreateTestPoster.event_title DefaultFont =
  Raise ValueError /\
  CreateTestPoster.get_centered_x bitmap_default_renderer 800
    CreateTestPoster.event_title DefaultFont = Raise UnicodeEncodeError /\
  CreateTestPoster.measure_width bitmap_default_renderer
    CreateTestPoster.event_location DefaultFont = Raise UnicodeEncodeError /\
  CreateTestPoster.draw_poster bitmap_default_renderer 800 1200
    CreateTestPoster.all_default = Raise UnicodeEncodeError.
Proof.
  repeat split.
Qed.

(** ** Corner ornaments (create_test_poster.py) *)

Lemma draw_corner_command (r : Renderer) (img : Image) (corner : point) :
  CreateTestPoster.draw_corner r img corner =
  Ok (emit img (corner_command r corner)).
Proof.
  unfold CreateTestPoster.draw_corner, corner_command, draw_arc, try_pure,
    draw_rectangle.
  now destruct (arc_ok r _).
Qed.

Lemma draw_corners_commands (r : Renderer) (cs : list point) :
  forall img,
    exists img',
      CreateTestPoster.draw_corners r img cs = Ok img' /\
      size img' = size img /\
      background img' = background img /\
      commands img' = (commands img ++ map (corner_command r) cs)%list.
Proof.
  induction cs as [|c cs IH]; intros img; simpl.
  - exists img. now rewrite app_nil_r.
  - rewrite draw_corner_command. simpl.
    destruct (IH (emit img (corner_command r c))) as (img' & He & Hs & Hb & Hc).
    exists img'. repeat split; try assumption.
    rewrite Hc. simpl. now rewrite <- app_assoc.
Qed.

(** C9.  Whatever the renderer does on [draw.arc], drawing the four corner
    ornaments returns, and leaves one command per corner, in order: the
    quarter arc from 0 to 90 degrees in the 50-pixel box of the corner when
    the arc is drawn, and the filled 10-pixel square at the corner when
    [draw.arc] raises. *)
Theorem corner_ornaments_never_raise :
  forall (r : Renderer) (img : Image) (w h : Z),
    exists img',
      CreateTestPoster.draw_corners r img (CreateTestPoster.corners w h) =
      Ok img' /\
      commands img' =
      (commands img ++
       map (fun corner =>
              if arc_ok r (corner, (fst corner + 50, snd corner + 50))
              then Arc (corner, (fst corner + 50, snd corner + 50)) 0 90
                     CreateTestPoster.accent_color 3
              else Rectangle (corner, (fst corner + 10, snd corner + 10))
                     (Some CreateTestPoster.accent_color) None 1)
         [ (50, 50); (w - 100, 50); (50, h - 100); (w - 100, h - 100) ])%list.
Proof.
  intros r img w h.
  destruct (draw_corners_commands r (CreateTestPoster.corners w h) img)
    as (img' & He & _ & _ & Hc).
  exists img'. split; [exact He|].
  rewrite Hc. unfold CreateTestPoster.corners, CreateTestPoster.corner_size,
    corner_command, CreateTestPoster.corner_size.
  simpl.
  replace (w - 50 - 50) with (w - 100) by lia.
  replace (h - 50 - 50) with (h - 100) by lia.
  reflexivity.
Qed.

(** ** Line layout (create-test-event-image.py, test-images/test-event.py) *)

Lemma text_commands_nth (cmd : Z -> string -> DrawCommand) (pitch : Z) :
  forall (lines : list string) (y : Z) (i : nat) (line : string),
    nth_error lines i = Some line ->
    nth_error (text_commands cmd pitch y lines) i =
    Some (cmd (y + pitch * Z.of_nat i) line).
Proof.
  induction lines as [|l rest IH]; intros y i line Hi.
  - destruct i; discriminate Hi.
  - destruct i as [|i]; simpl in *.
    + inversion Hi; subst. do 2 f_equal. lia.
    + rewrite (IH (y + pitch) i line Hi). do 2 f_equal. lia.
Qed.

Lemma text_commands_length (cmd : Z -> string -> DrawCommand) (pitch : Z) :
  forall (lines : list string) (y : Z),
    length (text_commands cmd pitch y lines) = length lines.
Proof.
  induction lines as [|l rest IH]; intros y; simpl; [reflexivity|].
  now rewrite IH.
Qed.

Lemma draw_details_commands :
  forall (lines : list string) (img : Image) (fnt : font) (y : Z),
    commands (CreateTestEventImage.draw_details img fnt y lines) =
    (commands img ++
     text_commands (fun y line => Text (50, y) line (Named "black") fnt None)
       35 y lines)%list.
Proof.
  induction lines as [|l rest IH]; intros img fnt y; simpl.
  - now rewrite app_nil_r.
  - rewrite IH. simpl. now rewrite <- app_assoc.
Qed.

Lemma draw_concert_info_commands :
  forall (lines : list string) (img : Image) (w : Z) (fnt : font) (y : Z),
    commands (CreateTestEventImage.draw_concert_info img w fnt y lines) =
    (commands img ++
     text_commands
       (fun y line =>
          Text (CreateTestEventImage.x_position w line, y) line
            (CreateTestEventImage.line_color line) fnt None)
       40 y lines)%list.
Proof.
  induction lines as [|l rest IH]; intros img w fnt y; simpl.
  - now rewrite app_nil_r.
  - rewrite IH. simpl. now rewrite <- app_assoc.
Qed.

(** The command the concert poster issues for its [i]-th detail line. *)
Lemma concert_image_nth (fonts : font * font * font) (lines : list string)
  (i : nat) (line : string) :
  nth_error lines i = Some line ->
  nth_error (commands (CreateTestEventImage.concert_image fonts lines))
    (4 + i) =
  Some (Text (CreateTestEventImage.x_position 800 line,
              300 + 40 * Z.of_nat i) line
          (CreateTestEventImage.line_color line) (snd fonts) None).
Proof.
  intros Hi. destruct fonts as [[title_font subtitle_font] body_font].
  unfold CreateTestEventImage.concert_image.
  rewrite draw_concert_info_commands.
  change (4 + i)%nat with (S (S (S (S i)))). simpl.
  exact (text_commands_nth _ 40 lines 300 i line Hi).
Qed.

(** C2, as the code has it.  On the lines of the example the loop of
    create_test_event_image issues three text calls at the left margin 50:
    the blank line at y = 120 with an empty payload, the date at y = 155 and
    the location at y = 190. *)
Theorem blank_line_is_drawn_and_advances :
  forall (img : Image) (fnt : font),
    commands (CreateTestEventImage.draw_details img fnt 120 claim_lines) =
    (commands img ++
     [ Text (50, 120) "" (Named "black") fnt None;
       Text (50, 155) "Date: 2025-02-15" (Named "black") fnt None;
       Text (50, 190) "Location: Hall A" (Named "black") fnt None ])%list.
Proof.
  intros img fnt. rewrite draw_details_commands. reflexivity.
Qed.

(** C2 as stated does not hold: the commands are not the two expected ones,
    neither as issued nor with the blank payload left out. *)
Lemma blank_line_example_differs :
  let cmds :=
    commands (CreateTestEventImage.draw_details
                (Image_new (800, 600) (Named "white")) DefaultFont 120
                claim_lines) in
  cmds <> claimed_commands DefaultFont /\
  filter visible cmds <> claimed_commands DefaultFont.
Proof.
  split; vm_compute; discriminate.
Qed.

(** C4, as the code has it.  In create_concert_poster a detail line that
    starts with the bullet is drawn at x = 50, at its own row.  In
    test-images/test-event.py the three bulleted lines are drawn centred, at
    x = 400 with the anchor 'mt'. *)
Theorem bulleted_lines_left_in_concert_poster :
  forall (fonts : font * font * font),
    (forall (lines : list string) (i : nat) (line : string),
        nth_error lines i = Some line ->
        startswith line "•" = true ->
        nth_error (commands (CreateTestEventImage.concert_image fonts lines))
          (4 + i) =
        Some (Text (50, 300 + 40 * Z.of_nat i) line
                (CreateTestEventImage.line_color line) (snd fonts) None)) /\
    (forall c,
        In c (commands (TestEvent.event_image fonts)) ->
        forall text, text_payload c = Some text ->
        startswith text "•" = true ->
        exists y, text_xy c = Some (400, y) /\ text_anchor c = Some "mt").
Proof.
  intros fonts. split.
  - intros lines i line Hi Hb.
    rewrite (concert_image_nth fonts lines i line Hi).
    unfold CreateTestEventImage.x_position. now rewrite Hb.
  - destruct fonts as [[title_font body_font] small_font].
    intros c Hc text Ht Hb. simpl in Hc.
    repeat (destruct Hc as [Hc|Hc];
            [subst c; simpl in Ht; inversion Ht; subst text;
             first [ discriminate Hb | eexists; split; reflexivity ]|]).
    destruct Hc.
Qed.

Lemma bulleted_lines_left_in_concert_poster_witness :
  nth_error
    (commands (CreateTestEventImage.concert_image
                 (DefaultFont, DefaultFont, DefaultFont)
                 CreateTestEventImage.concert_info)) (4 + 9) =
  Some (Text (50, 660) "• BTS" (Named "white") DefaultFont None).
Proof.
  destruct (bulleted_lines_left_in_concert_poster
              (DefaultFont, DefaultFont, DefaultFont)) as [Hconcert _].
  exact (Hconcert CreateTestEventImage.concert_info 9%nat "• BTS"
           eq_refl eq_refl).
Defined.

(** C4 as stated does not hold: test-images/test-event.py draws a line that
    starts with the bullet at x = 400, centred, not at a left margin. *)
Lemma bulleted_line_centered_in_test_event :
  nth_error
    (commands (TestEvent.event_image (DefaultFont, DefaultFont, DefaultFont)))
    8 =
  Some (Text (400, 460) "• AI & Machine Learning" TestEvent.black DefaultFont
          (Some "mt")) /\
  startswith "• AI & Machine Learning" "•" = true /\
  400 <> 50.
Proof.
  repeat split; try reflexivity. discriminate.
Qed.

(** C5.  In create_concert_poster the text of every detail line is drawn in
    the accent colour '#f39c12' when the line contains '티켓' or '가격', and in
    the default colour 'white' otherwise; a line carries no colour of its
    own. *)
Theorem highlight_lines_get_accent_color :
  forall (fonts : font * font * font) (lines : list string) (i : nat)
    (line : string),
    nth_error lines i = Some line ->
    exists c,
      nth_error (commands (CreateTestEventImage.concert_image fonts lines))
        (4 + i) = Some c /\
      text_payload c = Some line /\
      text_fill c =
      Some (if str_in "티켓" line || str_in "가격" line
            then Named "#f39c12" else Named "white").
Proof.
  intros fonts lines i line Hi.
  eexists. split; [exact (concert_image_nth fonts lines i line Hi)|].
  split; reflexivity.
Qed.

Lemma highlight_lines_get_accent_color_witness :
  exists c,
    nth_error
      (commands (CreateTestEventImage.concert_image
                   (DefaultFont, DefaultFont, DefaultFont)
                   CreateTestEventImage.concert_info)) (4 + 16) = Some c /\
    text_payload c = Some "가격: 99,000원 ~ 150,000원" /\
    text_fill c = Some (Named "#f39c12").
Proof.
  exact (highlight_lines_get_accent_color
           (DefaultFont, DefaultFont, DefaultFont)
           CreateTestEventImage.concert_info 16%nat
           "가격: 99,000원 ~ 150,000원" eq_refl).
Defined.

(** C10.  In create_concert_poster a detail line that does not start with
    the bullet is drawn at x = 800 // 2 - 150 = 250 whatever its content; the
    placement takes no renderer and measures nothing. *)
Theorem unbulleted_lines_at_fixed_x :
  forall (fonts : font * font * font) (lines : list string) (i : nat)
    (line : string),
    nth_error lines i = Some line ->
    startswith line "•" = false ->
    CreateTestEventImage.x_position 800 line = 800 / 2 - 150 /\
    nth_error (commands (CreateTestEventImage.concert_image fonts lines))
      (4 + i) =
    Some (Text (250, 300 + 40 * Z.of_nat i) line
            (CreateTestEventImage.line_color line) (snd fonts) None).
Proof.
  intros fonts lines i line Hi Hb.
  assert (Hx : CreateTestEventImage.x_position 800 line = 250).
  { unfold CreateTestEventImage.x_position. now rewrite Hb. }
  split; [exact Hx|].
  rewrite (concert_image_nth fonts lines i line Hi). now rewrite Hx.
Qed.

Lemma unbulleted_lines_at_fixed_x_witness :
  nth_error
    (commands (CreateTestEventImage.concert_image
                 (DefaultFont, DefaultFont, DefaultFont)
                 CreateTestEventImage.concert_info)) (4 + 1) =
  Some (Text (250, 340) "2025년 3월 22일 토요일" (Named "white") DefaultFont
          None).
Proof.
  exact (proj2 (unbulleted_lines_at_fixed_x
                  (DefaultFont, DefaultFont, DefaultFont)
                  CreateTestEventImage.concert_info 1%nat
                  "2025년 3월 22일 토요일" eq_refl eq_refl)).
Defined.

(** ** Persistence *)

Lemma same_fs_refl (w : World) : same_fs w w.
Proof. now repeat split. Qed.

Lemma same_fs_trans (w1 w2 w3 : World) :
  same_fs w1 w2 -> same_fs w2 w3 -> same_fs w1 w3.
Proof.
  intros (Hd & Hf & Hs) (Hd' & Hf' & Hs'). repeat split; congruence.
Qed.

Lemma ret_inert {A} (a : A) : fs_inert (ret a).
Proof. intros w. apply same_fs_refl. Qed.

Lemma bind_inert {A B} (m : M A) (k : A -> M B) :
  fs_inert m -> (forall a, fs_inert (k a)) -> fs_inert (bind m k).
Proof.
  intros Hm Hk w. unfold bind. specialize (Hm w).
  destruct (m w) as [[a|e] w1]; simpl in *; [|exact Hm].
  exact (same_fs_trans _ _ _ Hm (Hk a w1)).
Qed.

Lemma try_except_inert {A} (m handler : M A) :
  fs_inert m -> fs_inert handler -> fs_inert (try_except m handler).
Proof.
  intros Hm Hh w. unfold try_except. specialize (Hm w).
  destruct (m w) as [[a|e] w1]; simpl in *; [exact Hm|].
  exact (same_fs_trans _ _ _ Hm (Hh w1)).
Qed.

Lemma try_except_total {A} (m : M A) (a : A) : total (try_except m (ret a)).
Proof.
  intros w. unfold try_except, ret.
  destruct (m w) as [[b|e] w1]; simpl; eauto.
Qed.

Lemma truetype_inert (h : Host) (p : string) (sz : Z) :
  fs_inert (truetype h p sz).
Proof.
  intros w. unfold truetype.
  destruct (loadable h p sz); simpl; now repeat split.
Qed.

Lemma find_font_inert (h : Host) (paths : list string) (sz : Z) :
  fs_inert (find_font h paths sz).
Proof.
  induction paths as [|p rest IH]; simpl.
  - apply ret_inert.
  - destruct (path_exists h p); [|exact IH].
    apply bind_inert; [apply truetype_inert|intros f; apply ret_inert].
Qed.

Lemma resized_inert (h : Host) (f : font) (sz : Z) :
  fs_inert (CreateTestEventImage.resized h f sz).
Proof.
  unfold CreateTestEventImage.resized.
  destruct (has_path f); [apply truetype_inert|apply ret_inert].
Qed.

Create HintDb inert.
#[local] Hint Resolve ret_inert truetype_inert find_font_inert resized_inert
  : inert.

Ltac inert :=
  repeat first
    [ solve [auto with inert]
    | progress cbv zeta
    | apply try_except_inert
    | apply bind_inert; [|intros ?] ].

Lemma resolve_font_inert (h : Host) (paths : list string) (sz : Z) :
  fs_inert (CreateTestImage.resolve_font h paths sz).
Proof. unfold CreateTestImage.resolve_font. inert. Qed.

Lemma event_fonts_inert (h : Host) (paths : list string) :
  fs_inert (CreateTestEventImage.event_fonts h paths).
Proof. unfold CreateTestEventImage.event_fonts. inert. Qed.

Lemma concert_fonts_inert (h : Host) (paths : list string) :
  fs_inert (CreateTestEventImage.concert_fonts h paths).
Proof. unfold CreateTestEventImage.concert_fonts. inert. Qed.

Lemma meeting_fonts_inert (h : Host) (paths : list string) :
  fs_inert (CreateTestEventImage.meeting_fonts h paths).
Proof. unfold CreateTestEventImage.meeting_fonts. inert. Qed.

Lemma dir_exists_same_fs (w w' : World) (d : string) :
  same_fs w w' -> dir_exists w' d = dir_exists w d.
Proof. intros (Hd & _ & _). unfold dir_exists. now rewrite Hd. Qed.

Lemma save_equation (h : Host) (filename : string) (img : Image) (w : World) :
  save h filename img w =
  if negb (dir_exists w (dirname filename)) then
    (Raise FileNotFoundError, log_save w filename)
  else if negb (dir_writable h (dirname filename)) then
    (Raise PermissionError, log_save w filename)
  else (Ok tt, mkWorld (truetype_calls w) (dirs w)
                 ((filename, img) :: files w) (save_calls w ++ [filename])).
Proof. reflexivity. Qed.

(** Every generator follows the decision table of [generation_outcome], for
    the image of the fonts it sets up. *)
Lemma generator_outcome {F A} (rt : Runtime) (h : Host) (by_extension : bool)
  (sz : Z * Z) (bg : color) (fonts : M F) (mk : F -> Image)
  (filename msg : string) (v : A) (w : World) :
  total fonts -> fs_inert fonts ->
  exists fs w1,
    fonts w = (Ok fs, w1) /\
    generation_outcome rt h by_extension sz bg (mk fs) filename msg w v
      (generator rt sz bg fonts mk
         (if by_extension then save_by_extension rt h else save h)
         filename msg v w).
Proof.
  intros Ht Hi. destruct (Ht w) as [fs Hfs]. specialize (Hi w).
  destruct (fonts w) as [r w1] eqn:E. cbn [fst snd] in Hfs, Hi. subst r.
  exists fs, w1. split; [reflexivity|].
  pose proof (dir_exists_same_fs w w1 (dirname filename) Hi) as He.
  destruct Hi as (Hd & Hf & Hs).
  unfold generation_outcome, generator, bind, lift, ret.
  destruct (new_image rt sz bg) as [[]|e]; cbn [rbind fst snd];
    [|now repeat split].
  rewrite E.
  destruct (play rt (commands (mk fs))) as [[]|e]; cbn [rbind fst snd];
    [|now repeat split].
  destruct by_extension; unfold save_by_extension;
    [destruct (format_known rt filename)|]; cbn [andb negb];
    try rewrite save_equation; try rewrite He;
    try (destruct (dir_exists w (dirname filename));
         destruct (dir_writable h (dirname filename)));
    cbn [negb fst snd log_save dirs files save_calls];
    try (destruct (print_line rt msg) as [[]|e]);
    cbn [rbind fst snd dirs files save_calls];
    repeat split; congruence.
Qed.

(** A generation call that returned went through every step. *)
Lemma outcome_returned {A} (rt : Runtime) (h : Host) (by_extension : bool)
  (sz : Z * Z) (bg : color) (img : Image) (filename msg : string)
  (w : World) (v v' : A) (out : result A * World) :
  generation_outcome rt h by_extension sz bg img filename msg w v out ->
  fst out = Ok v' ->
  new_image rt sz bg = Ok tt /\
  play rt (commands img) = Ok tt /\
  (by_extension = true -> format_known rt filename = true) /\
  dir_exists w (dirname filename) = true /\
  dir_writable h (dirname filename) = true /\
  print_line rt msg = Ok tt /\
  v' = v.
Proof.
  unfold generation_outcome. intros (_ & Ho) Hr.
  destruct (new_image rt sz bg) as [[]|e]; cbn [rbind] in Ho;
    [|destruct Ho; congruence].
  destruct (play rt (commands img)) as [[]|e]; [|destruct Ho; congruence].
  destruct Ho as (_ & Ho).
  destruct by_extension; [destruct (format_known rt filename)|];
    cbn [andb negb] in Ho; try (destruct Ho; congruence).
  all: destruct (dir_exists w (dirname filename));
    cbn [negb] in Ho; [|destruct Ho; congruence].
  all: destruct (dir_writable h (dirname filename));
    cbn [negb] in Ho; [|destruct Ho; congruence].
  all: destruct Ho as (Ho & _);
    destruct (print_line rt msg) as [[]|e]; cbn [rbind] in Ho;
    [|congruence].
  all: repeat split; congruence.
Qed.

(** A generation call whose steps all complete returns, having written its
    one file. *)
Lemma outcome_when_ready {A} (rt : Runtime) (h : Host) (by_extension : bool)
  (sz : Z * Z) (bg : color) (img : Image) (filename msg : string)
  (w : World) (v : A) (out : result A * World) :
  generation_outcome rt h by_extension sz bg img filename msg w v out ->
  new_image rt sz bg = Ok tt ->
  play rt (commands img) = Ok tt ->
  (by_extension = true -> format_known rt filename = true) ->
  dir_exists w (dirname filename) = true ->
  dir_writable h (dirname filename) = true ->
  print_line rt msg = Ok tt ->
  fst out = Ok v /\
  dirs (snd out) = dirs w /\
  save_calls (snd out) = (save_calls w ++ [filename])%list /\
  files (snd out) = (filename, img) :: files w.
Proof.
  unfold generation_outcome. intros (Hd & Ho) Hn Hp Hfmt He Hw Hpr.
  rewrite Hn in Ho. cbn [rbind] in Ho. rewrite Hp, He, Hw, Hpr in Ho.
  destruct by_extension; [rewrite (Hfmt eq_refl) in Ho|];
    cbn [andb negb rbind] in Ho; destruct Ho as (Hs & Hr & Hf);
    now repeat split.
Qed.




Lemma create_test_image_outcome (rt : Runtime) (h : Host)
  (text filename : string) (sz : Z * Z) (bg_color text_color : color)
  (w : World) :
  exists fnt w1,
    CreateTestImage.resolve_font h CreateTestImage.font_paths 40 w
    = (Ok fnt, w1) /\
    generation_outcome rt h true sz bg_color
      (CreateTestImage.draw_lines (Image_new sz bg_color) fnt text_color 50
         (split_nl text))
      filename ("✅ Created: " ++ filename) w tt
      (CreateTestImage.create_test_image rt h text filename sz bg_color
         text_color w).
Proof.
  exact (generator_outcome rt h true sz bg_color
           (CreateTestImage.resolve_font h CreateTestImage.font_paths 40)
           (fun fnt => CreateTestImage.draw_lines (Image_new sz bg_color) fnt
                         text_color 50 (split_nl text))
           filename _ tt w (try_except_total _ _)
           (resolve_font_inert h _ _)).
Qed.


Lemma dirname_concert : dirname "test-images/concert.png" = "test-images".
Proof. reflexivity. Qed.

Lemma dirname_meeting : dirname "test-images/meeting.png" = "test-images".
Proof. reflexivity. Qed.

Lemma dir_exists_dirs (w w' : World) (d : string) :
  dirs w' = dirs w -> dir_exists w' d = dir_exists w d.
Proof. intros Hd. unfold dir_exists. now rewrite Hd. Qed.

Lemma makedirs_existing (h : Host) (w : World) :
  dir_exists w "test-images" = true ->
  makedirs h "test-images" w = (Ok tt, w).
Proof.
  intros He. unfold makedirs.
  change (String.length "test-images") with 11%nat.
  cbn [makedirs_rec].
  change (dirname "test-images") with "".
  change (String.eqb "" "") with true.
  cbn [negb andb]. unfold bind at 1, ret at 1.
  now rewrite He.
Qed.

Lemma makedirs_missing (h : Host) (w : World) :
  dir_exists w "test-images" = false ->
  makedirs h "test-images" w =
  if dir_writable h "" then
    (Ok tt, mkWorld (truetype_calls w) ("test-images" :: dirs w) (files w)
              (save_calls w))
  else (Raise PermissionError, w).
Proof.
  intros He. unfold makedirs.
  change (String.length "test-images") with 11%nat.
  cbn [makedirs_rec].
  change (dirname "test-images") with "".
  change (String.eqb "" "") with true.
  cbn [negb andb]. unfold bind at 1, ret at 1.
  rewrite He. unfold mkdir. change (dirname "test-images") with "".
  unfold dir_exists at 1. change (String.eqb "" "") with true.
  cbn [orb negb]. now destruct (dir_writable h "").
Qed.

(** [os.makedirs("test-images", exist_ok=True)] where the directory exists
    or can be created. *)
Lemma makedirs_test_images (h : Host) (w : World) :
  dir_exists w "test-images" = true \/ dir_writable h "" = true ->
  exists w0,
    makedirs h "test-images" w = (Ok tt, w0) /\
    dir_exists w0 "test-images" = true /\
    dirs w0 = (if dir_exists w "test-images" then dirs w
               else "test-images" :: dirs w) /\
    files w0 = files w /\
    save_calls w0 = save_calls w.
Proof.
  intros Hok. destruct (dir_exists w "test-images") eqn:He.
  - exists w. rewrite (makedirs_existing h w He). now repeat split.
  - destruct Hok as [Hok|Hw]; [discriminate Hok|].
    rewrite (makedirs_missing h w He), Hw. eexists. split; [reflexivity|].
    split; [|now repeat split]. unfold dir_exists. cbn [dirs existsb].
    rewrite String.eqb_refl. now rewrite orb_true_r.
Qed.

Lemma bind_returned {A B} (m : M A) (k : A -> M B) (w : World) (b : B) :
  fst (bind m k w) = Ok b ->
  exists a w1, m w = (Ok a, w1) /\ bind m k w = k a w1.
Proof.
  unfold bind. destruct (m w) as [[a|e] w1]; [|discriminate].
  intros _. now exists a, w1.
Qed.

Lemma ret_independent {A} (a : A) : state_independent (ret a).
Proof. intros w1 w2. reflexivity. Qed.

Lemma bind_independent {A B} (m : M A) (k : A -> M B) :
  state_independent m -> (forall a, state_independent (k a)) ->
  state_independent (bind m k).
Proof.
  intros Hm Hk w1 w2. unfold bind. specialize (Hm w1 w2).
  destruct (m w1) as [[a1|e1] w1'], (m w2) as [[a2|e2] w2'];
    cbn [fst] in *; try congruence.
  inversion Hm; subst. apply Hk.
Qed.

Lemma try_except_independent {A} (m handler : M A) :
  state_independent m -> state_independent handler ->
  state_independent (try_except m handler).
Proof.
  intros Hm Hh w1 w2. unfold try_except. specialize (Hm w1 w2).
  destruct (m w1) as [[a1|e1] w1'], (m w2) as [[a2|e2] w2'];
    cbn [fst] in *; try congruence.
  apply Hh.
Qed.

Lemma truetype_independent (h : Host) (p : string) (sz : Z) :
  state_independent (truetype h p sz).
Proof. intros w1 w2. unfold truetype. now destruct (loadable h p sz). Qed.

Lemma find_font_independent (h : Host) (paths : list string) (sz : Z) :
  state_independent (find_font h paths sz).
Proof.
  induction paths as [|p rest IH]; simpl.
  - apply ret_independent.
  - destruct (path_exists h p); [|exact IH].
    apply bind_independent;
      [apply truetype_independent|intros f; apply ret_independent].
Qed.

Lemma resized_independent (h : Host) (f : font) (sz : Z) :
  state_independent (CreateTestEventImage.resized h f sz).
Proof.
  unfold CreateTestEventImage.resized.
  destruct (has_path f); [apply truetype_independent|apply ret_independent].
Qed.

Create HintDb independent.
#[local] Hint Resolve ret_independent truetype_independent
  find_font_independent resized_independent : independent.

Ltac independent :=
  repeat first
    [ solve [auto with independent]
    | progress cbv zeta
    | apply try_except_independent
    | apply bind_independent; [|intros ?] ].

Lemma event_fonts_independent (h : Host) (paths : list string) :
  state_independent (CreateTestEventImage.event_fonts h paths).
Proof. unfold CreateTestEventImage.event_fonts. independent. Qed.

Lemma concert_fonts_independent (h : Host) (paths : list string) :
  state_independent (CreateTestEventImage.concert_fonts h paths).
Proof. unfold CreateTestEventImage.concert_fonts. independent. Qed.

Lemma meeting_fonts_independent (h : Host) (paths : list string) :
  state_independent (CreateTestEventImage.meeting_fonts h paths).
Proof. unfold CreateTestEventImage.meeting_fonts. independent. Qed.

(** A generator that returned can produce its image again: the fonts do not
    depend on the state. *)
Lemma generator_returned {F A} (rt : Runtime) (h : Host) (sz : Z * Z)
  (bg : color) (fonts : M F) (mk : F -> Image) (filename msg : string)
  (v v' : A) (w : World) :
  total fonts -> fs_inert fonts -> state_independent fonts ->
  fst (generator rt sz bg fonts mk (save_by_extension rt h) filename msg v w)
  = Ok v' ->
  generator_ready rt fonts sz bg mk filename msg /\
  dir_exists w (dirname filename) = true /\
  dir_writable h (dirname filename) = true.
Proof.
  intros Ht Hi Hs Hr.
  destruct (generator_outcome rt h true sz bg fonts mk filename msg v w Ht Hi)
    as (fs & w1 & Hf & Ho).
  destruct (outcome_returned _ _ _ _ _ _ _ _ _ _ _ _ Ho Hr)
    as (Hn & Hp & Hfmt & He & Hw & Hpr & _).
  repeat split; try assumption; [now apply Hfmt|].
  intros fs' w0 Hf'. rewrite (Hs w0 w), Hf in Hf'. cbn [fst] in Hf'.
  now inversion Hf'; subst.
Qed.

(** A generator the runtime is ready for returns where the directory of its
    output exists and is writable. *)
Lemma generator_runs {F A} (rt : Runtime) (h : Host) (sz : Z * Z)
  (bg : color) (fonts : M F) (mk : F -> Image) (filename msg : string)
  (v : A) (w : World) :
  total fonts -> fs_inert fonts ->
  generator_ready rt fonts sz bg mk filename msg ->
  dir_exists w (dirname filename) = true ->
  dir_writable h (dirname filename) = true ->
  exists fs w1 w',
    fonts w = (Ok fs, w1) /\
    generator rt sz bg fonts mk (save_by_extension rt h) filename msg v w
    = (Ok v, w') /\
    dirs w' = dirs w /\
    save_calls w' = (save_calls w ++ [filename])%list /\
    files w' = (filename, mk fs) :: files w.
Proof.
  intros Ht Hi (Hfmt & Hn & Hp & Hpr) He Hw.
  destruct (generator_outcome rt h true sz bg fonts mk filename msg v w Ht Hi)
    as (fs & w1 & Hf & Ho).
  assert (Hplay : play rt (commands (mk fs)) = Ok tt).
  { apply (Hp fs w). now rewrite Hf. }
  destruct (outcome_when_ready _ _ _ _ _ _ _ _ _ _ _ Ho Hn Hplay
              (fun _ => Hfmt) He Hw Hpr) as (Hr & Hd & Hs & Hfl).
  destruct (generator _ _ _ _ _ _ _ _ _ w) as [r w'].
  cbn [fst snd] in *. subst r. now exists fs, w1, w'.
Qed.

Lemma main_runs (rt : Runtime) (h : Host) (w : World) :
  dir_exists w "test-images" = true \/ dir_writable h "" = true ->
  dir_writable h "test-images" = true ->
  main_ready rt h ->
  exists w',
    CreateTestEventImage.main rt h w = (Ok tt, w') /\
    dir_exists w' "test-images" = true /\
    dirs w' = (if dir_exists w "test-images" then dirs w
               else "test-images" :: dirs w) /\
    save_calls w' =
    (save_calls w ++
     [ "test-images/conference.png"; "test-images/concert.png";
       "test-images/meeting.png" ])%list /\
    map fst (files w') =
    ([ "test-images/meeting.png"; "test-images/concert.png";
       "test-images/conference.png" ] ++ map fst (files w))%list.
Proof.
  intros Hcwd Hdir (Hr1 & Hr2 & Hr3 & Hp1 & Hp2).
  destruct (makedirs_test_images h w Hcwd) as (w0 & Hmk & He0 & Hd0 & Hf0 & Hs0).
  unfold CreateTestEventImage.main. unfold bind at 1. rewrite Hmk.
  destruct (generator_runs rt h (800, 600) (Named "white")
              (CreateTestEventImage.event_fonts h
                 CreateTestEventImage.event_font_paths)
              (fun fonts => CreateTestEventImage.event_image (fst fonts)
                              (snd fonts) CreateTestEventImage.details)
              "test-images/conference.png" _ "test-images/conference.png" w0
              (try_except_total _ _) (event_fonts_inert h _) Hr1 He0 Hdir)
    as (fs1 & u1 & w1 & _ & Hg1 & Hd1 & Hs1 & Hf1).
  unfold bind at 1.
  change (CreateTestEventImage.create_test_event_image rt h
            "test-images/conference.png" w0)
    with (generator rt (800, 600) (Named "white")
            (CreateTestEventImage.event_fonts h
               CreateTestEventImage.event_font_paths)
            (fun fonts => CreateTestEventImage.event_image (fst fonts)
                            (snd fonts) CreateTestEventImage.details)
            (save_by_extension rt h) "test-images/conference.png"
            ("Test event image created: " ++ "test-images/conference.png")
            "test-images/conference.png" w0).
  rewrite Hg1.
  assert (He1 : dir_exists w1 "test-images" = true)
    by now rewrite (dir_exists_dirs w0 w1 _ Hd1).
  destruct (generator_runs rt h (800, 1000) (Named "#1a1a2e")
              (CreateTestEventImage.concert_fonts h
                 CreateTestEventImage.concert_font_paths)
              (fun fonts => CreateTestEventImage.concert_image fonts
                              CreateTestEventImage.concert_info)
              "test-images/concert.png" _ "test-images/concert.png" w1
              (try_except_total _ _) (concert_fonts_inert h _) Hr2 He1 Hdir)
    as (fs2 & u2 & w2 & _ & Hg2 & Hd2 & Hs2 & Hf2).
  unfold bind at 1.
  change (CreateTestEventImage.create_concert_poster rt h
            "test-images/concert.png" w1)
    with (generator rt (800, 1000) (Named "#1a1a2e")
            (CreateTestEventImage.concert_fonts h
               CreateTestEventImage.concert_font_paths)
            (fun fonts => CreateTestEventImage.concert_image fonts
                            CreateTestEventImage.concert_info)
            (save_by_extension rt h) "test-images/concert.png"
            ("Concert poster created: " ++ "test-images/concert.png")
            "test-images/concert.png" w1).
  rewrite Hg2.
  assert (He2 : dir_exists w2 "test-images" = true)
    by now rewrite (dir_exists_dirs w1 w2 _ Hd2).
  destruct (generator_runs rt h (600, 400) (Named "white")
              (CreateTestEventImage.meeting_fonts h
                 CreateTestEventImage.meeting_font_paths)
              (fun fonts => CreateTestEventImage.meeting_image (fst fonts)
                              (snd fonts) CreateTestEventImage.meeting_info)
              "test-images/meeting.png" _ "test-images/meeting.png" w2
              (try_except_total _ _) (meeting_fonts_inert h _) Hr3 He2 Hdir)
    as (fs3 & u3 & w3 & _ & Hg3 & Hd3 & Hs3 & Hf3).
  unfold bind at 1.
  change (CreateTestEventImage.create_meeting_notice rt h
            "test-images/meeting.png" w2)
    with (generator rt (600, 400) (Named "white")
            (CreateTestEventImage.meeting_fonts h
               CreateTestEventImage.meeting_font_paths)
            (fun fonts => CreateTestEventImage.meeting_image (fst fonts)
                            (snd fonts) CreateTestEventImage.meeting_info)
            (save_by_extension rt h) "test-images/meeting.png"
            ("Meeting notice created: " ++ "test-images/meeting.png")
            "test-images/meeting.png" w2).
  rewrite Hg3.
  unfold bind, lift. rewrite Hp1, Hp2.
  exists w3. split; [reflexivity|]. split; [|split; [|split]].
  - now rewrite (dir_exists_dirs w2 w3 _ Hd3).
  - congruence.
  - rewrite Hs3, Hs2, Hs1, Hs0. now rewrite <- !app_assoc.
  - rewrite Hf3, Hf2, Hf1. cbn [map fst app]. now rewrite Hf0.
Qed.





(** Where the directory of the output is missing or not writable, a
    generation call raises and writes nothing; the error is the one of the
    save when the image was drawn and its format is known. *)
Lemma outcome_no_file {A} (rt : Runtime) (h : Host) (by_extension : bool)
  (sz : Z * Z) (bg : color) (img : Image) (filename msg : string)
  (w : World) (v : A) (out : result A * World) :
  generation_outcome rt h by_extension sz bg img filename msg w v out ->
  dir_exists w (dirname filename) && dir_writable h (dirname filename)
  = false ->
  exists e,
    fst out = Raise e /\
    dirs (snd out) = dirs w /\
    files (snd out) = files w /\
    (new_image rt sz bg = Ok tt ->
     play rt (commands img) = Ok tt ->
     (by_extension = true -> format_known rt filename = true) ->
     e = (if dir_exists w (dirname filename) then PermissionError
          else FileNotFoundError) /\
     save_calls (snd out) = (save_calls w ++ [filename])%list).
Proof.
  unfold generation_outcome. intros (Hd & Ho) Hno.
  destruct (new_image rt sz bg) as [[]|e]; cbn [rbind] in Ho.
  2:{ destruct Ho as (Hr & _ & Hf). exists e.
      split; [exact Hr|]. split; [exact Hd|]. split; [exact Hf|].
      intros Hn. discriminate Hn. }
  destruct (play rt (commands img)) as [[]|e].
  2:{ destruct Ho as (Hr & _ & Hf). exists e.
      split; [exact Hr|]. split; [exact Hd|]. split; [exact Hf|].
      intros _ Hp. discriminate Hp. }
  destruct Ho as (Hs & Ho).
  destruct (by_extension && negb (format_known rt filename)) eqn:Hb.
  { destruct Ho as (Hr & Hf). exists ValueError.
    split; [exact Hr|]. split; [exact Hd|]. split; [exact Hf|].
    intros _ _ Hfmt. destruct by_extension; [|discriminate Hb].
    rewrite (Hfmt eq_refl) in Hb. discriminate Hb. }
  destruct (dir_exists w (dirname filename)); cbn [negb andb] in *.
  - rewrite Hno in Ho. cbn [negb] in Ho. destruct Ho as (Hr & Hf).
    exists PermissionError.
    split; [exact Hr|]. split; [exact Hd|]. split; [exact Hf|].
    intros _ _ _. now split.
  - destruct Ho as (Hr & Hf). exists FileNotFoundError.
    split; [exact Hr|]. split; [exact Hd|]. split; [exact Hf|].
    intros _ _ _. now split.
Qed.

(** * Further properties of the generators *)

(** ** The poster of create_test_poster.py *)

(** X1.  A string that can be measured is centred to the pixel: the gap
    [get_centered_x] leaves on the left and the gap that remains on the right
    differ by at most one, the odd pixel going to the right. *)
Theorem centered_x_gaps_differ_by_at_most_one :
  forall (r : Renderer) (cw : Z) (text : string) (fnt : font) (tw : Z),
    CreateTestPoster.measure_width r text fnt = Ok tw ->
    exists x,
      CreateTestPoster.get_centered_x r cw text fnt = Ok x /\
      0 <= (cw - tw - x) - x <= 1.
Proof.
  intros r cw text fnt tw Hm. exists ((cw - tw) / 2). split.
  - rewrite centered_x_of_width, Hm. reflexivity.
  - pose proof (Z.div_mod (cw - tw) 2 ltac:(lia)) as Hd.
    pose proof (Z.mod_pos_bound (cw - tw) 2 ltac:(lia)) as Hb. lia.
Qed.

Lemma centered_x_gaps_differ_by_at_most_one_witness :
  exists x,
    CreateTestPoster.get_centered_x (bbox_renderer 7) 800 "2025" DefaultFont =
    Ok x /\ 0 <= (800 - 28 - x) - x <= 1.
Proof.
  exact (centered_x_gaps_differ_by_at_most_one (bbox_renderer 7) 800 "2025"
           DefaultFont 28 eq_refl).
Defined.



(** X3.  The poster is drawn only when each of its five strings can be
    measured with its font: when one of them cannot, create_korean_poster
    raises instead of returning an image.  The title is measured before
    anything is drawn, so when it cannot be measured the error is the one of
    its measurement. *)
Theorem poster_not_drawn_unless_measurable :
  forall (r : Renderer) (w h : Z) (title_font subtitle_font body_font
    small_font : font),
    (forall e,
        CreateTestPoster.measure_width r CreateTestPoster.event_title
          title_font = Raise e ->
        CreateTestPoster.draw_poster r w h
          (title_font, subtitle_font, body_font, small_font) = Raise e) /\
    (measurable r CreateTestPoster.event_title title_font
     && measurable r CreateTestPoster.event_date subtitle_font
     && measurable r CreateTestPoster.event_time body_font
     && measurable r CreateTestPoster.event_location body_font
     && measurable r CreateTestPoster.event_price small_font = false ->
     exists e,
       CreateTestPoster.draw_poster r w h
         (title_font, subtitle_font, body_font, small_font) = Raise e).
Proof.
  intros r w h tf sf bf smf. split.
  - intros e He. unfold CreateTestPoster.draw_poster.
    rewrite centered_x_of_width, He. reflexivity.
  - intros Hno.
    destruct (CreateTestPoster.draw_poster r w h (tf, sf, bf, smf))
      as [img|e] eqn:He; [|now exists e].
    exfalso. unfold measurable in Hno.
    unfold CreateTestPoster.draw_poster in He.
    rewrite !centered_x_of_width in He.
    destruct (CreateTestPoster.measure_width r CreateTestPoster.event_title
                tf); [|discriminate He].
    destruct (CreateTestPoster.measure_width r CreateTestPoster.event_date
                sf); [|discriminate He].
    destruct (CreateTestPoster.measure_width r CreateTestPoster.event_time
                bf); [|discriminate He].
    destruct (CreateTestPoster.measure_width r
                CreateTestPoster.event_location bf); [|discriminate He].
    destruct (CreateTestPoster.measure_width r CreateTestPoster.event_price
                smf); [|discriminate He].
    discriminate Hno.
Qed.

(** With the built-in bitmap font the Korean title cannot be measured, and
    no poster is drawn. *)
Lemma poster_not_drawn_unless_measurable_witness :
  CreateTestPoster.draw_poster bitmap_default_renderer 800 1200
    (DefaultFont, DefaultFont, DefaultFont, DefaultFont)
  = Raise UnicodeEncodeError /\
  exists e,
    CreateTestPoster.draw_poster bitmap_default_renderer 800 1200
      (DefaultFont, DefaultFont, DefaultFont, DefaultFont) = Raise e.
Proof.
  destruct (poster_not_drawn_unless_measurable bitmap_default_renderer 800
              1200 DefaultFont DefaultFont DefaultFont DefaultFont)
    as [Htitle Hany].
  split.
  - apply Htitle. reflexivity.
  - apply Hany. reflexivity.
Defined.

Lemma first_existing_in (h : Host) (paths : list string) (p : string) :
  first_existing h paths = Some p -> In p paths /\ path_exists h p = true.
Proof.
  induction paths as [|q rest IH]; simpl; [discriminate|].
  destruct (path_exists h q) eqn:Hq.
  - intros Heq. inversion Heq; subst. split; [now left|exact Hq].
  - intros Heq. destruct (IH Heq) as [Hin Hp]. split; [now right|exact Hp].
Qed.

(** X4.  The four fonts of the poster are loaded from the first candidate
    that exists, at 72, 48, 36 and 28 points, when it loads at all four
    sizes; in every other case (no candidate exists, or one of the four loads
    fails) all four are the default font, none is kept from the file.  The
    font setup returns in every case, after at most four loads, and leaves
    the file system alone. *)
Theorem poster_fonts_all_or_nothing :
  forall (h : Host) (w : World),
    exists fonts w',
      CreateTestPoster.setup_fonts h w = (Ok fonts, w') /\
      same_fs w w' /\
      (length (truetype_calls w') <= length (truetype_calls w) + 4)%nat /\
      fonts =
      match first_existing h CreateTestPoster.korean_font_paths with
      | Some p =>
          if loadable h p 72 && loadable h p 48 && loadable h p 36
             && loadable h p 28
          then (FreeTypeFont p 72, FreeTypeFont p 48, FreeTypeFont p 36,
                FreeTypeFont p 28)
          else CreateTestPoster.all_default
      | None => CreateTestPoster.all_default
      end.
Proof.
  intros h w. unfold CreateTestPoster.setup_fonts, try_except.
  destruct (first_existing h CreateTestPoster.korean_font_paths) as [p|]
    eqn:Hfirst.
  - destruct (first_existing_in h _ p Hfirst) as [Hin _].
    assert (Hne : String.eqb p "" = false).
    { simpl in Hin.
      destruct Hin as [<-|[<-|[<-|[<-|[]]]]]; reflexivity. }
    rewrite Hne. unfold bind, truetype, ret.
    destruct (loadable h p 72); cbn [andb];
      [destruct (loadable h p 48); cbn [andb];
       [destruct (loadable h p 36); cbn [andb];
        [destruct (loadable h p 28)|]|]|];
      do 2 eexists; (split; [reflexivity|]);
      (split; [now repeat split|]);
      (split; [|reflexivity]);
      unfold log_truetype; cbn [truetype_calls];
      rewrite ?length_app; cbn [length]; lia.
  - unfold ret. do 2 eexists. split; [reflexivity|].
    split; [apply same_fs_refl|]. split; [lia|reflexivity].
Qed.




(** ** Fonts of create-test-event-image.py and test-images/test-event.py *)

(** X6.  The title and body fonts of create_test_event_image are the first
    candidate that exists, at 32 and 24 points, when it loads at both sizes;
    otherwise both are the default font: a title font that did load is
    dropped when the body size fails. *)
Theorem event_fonts_all_or_nothing :
  forall (h : Host) (paths : list string) (w : World),
    fst (CreateTestEventImage.event_fonts h paths w) =
    Ok (match first_existing h paths with
        | Some p =>
            if loadable h p 32 && loadable h p 24
            then (FreeTypeFont p 32, FreeTypeFont p 24)
            else (DefaultFont, DefaultFont)
        | None => (DefaultFont, DefaultFont)
        end).
Proof.
  intros h paths w. rewrite event_fonts_first.
  destruct (first_existing h paths) as [p|]; [|reflexivity].
  destruct (loadable h p 32); [|reflexivity].
  now destruct (loadable h p 24).
Qed.

(** X7.  The three fonts of create_concert_poster are the first candidate
    that exists, at 48, 36 and 28 points, when it loads at all three sizes;
    otherwise all three are the default font. *)
Theorem concert_fonts_all_or_nothing :
  forall (h : Host) (paths : list string) (w : World),
    fst (CreateTestEventImage.concert_fonts h paths w) =
    Ok (match first_existing h paths with
        | Some p =>
            if loadable h p 48 && loadable h p 36 && loadable h p 28
            then (FreeTypeFont p 48, FreeTypeFont p 36, FreeTypeFont p 28)
            else (DefaultFont, DefaultFont, DefaultFont)
        | None => (DefaultFont, DefaultFont, DefaultFont)
        end).
Proof.
  intros h paths w.
  unfold CreateTestEventImage.concert_fonts, try_except, bind.
  rewrite find_font_first.
  destruct (first_existing h paths) as [p|]; [|reflexivity].
  destruct (loadable h p 48); [|reflexivity].
  unfold CreateTestEventImage.resized; simpl. unfold truetype.
  destruct (loadable h p 36); [|reflexivity].
  now destruct (loadable h p 28).
Qed.

(** X8.  The fonts of create_meeting_notice are the first candidate that
    exists, at 28 points for the title and 24 for the body, when it loads at
    both sizes; otherwise both are the default font. *)
Theorem meeting_fonts_all_or_nothing :
  forall (h : Host) (paths : list string) (w : World),
    fst (CreateTestEventImage.meeting_fonts h paths w) =
    Ok (match first_existing h paths with
        | Some p =>
            if loadable h p 24 && loadable h p 28
            then (FreeTypeFont p 28, FreeTypeFont p 24)
            else (DefaultFont, DefaultFont)
        | None => (DefaultFont, DefaultFont)
        end).
Proof.
  intros h paths w.
  unfold CreateTestEventImage.meeting_fonts, try_except, bind.
  rewrite find_font_first.
  destruct (first_existing h paths) as [p|]; [|reflexivity].
  destruct (loadable h p 24); [|reflexivity].
  unfold CreateTestEventImage.resized; simpl. unfold truetype.
  now destruct (loadable h p 28).
Qed.

(** X9.  test-images/test-event.py asks for Helvetica without testing that
    the file exists: its three fonts are Helvetica at 48, 32 and 24 points
    when all three loads succeed, and three default fonts otherwise; the
    setup returns in both cases, after at most three loads. *)
Theorem test_event_fonts_all_or_nothing :
  forall (h : Host) (w : World),
    exists w',
      TestEvent.setup_fonts h w =
      (Ok (if loadable h TestEvent.helvetica 48
              && loadable h TestEvent.helvetica 32
              && loadable h TestEvent.helvetica 24
           then (FreeTypeFont TestEvent.helvetica 48,
                 FreeTypeFont TestEvent.helvetica 32,
                 FreeTypeFont TestEvent.helvetica 24)
           else (DefaultFont, DefaultFont, DefaultFont)), w') /\
      same_fs w w' /\
      (length (truetype_calls w') <= length (truetype_calls w) + 3)%nat.
Proof.
  intros h w. unfold TestEvent.setup_fonts, try_except, bind, truetype, ret.
  destruct (loadable h TestEvent.helvetica 48); cbn [andb];
    [destruct (loadable h TestEvent.helvetica 32); cbn [andb];
     [destruct (loadable h TestEvent.helvetica 24)|]|];
    eexists; (split; [reflexivity|]); (split; [now repeat split|]);
    unfold log_truetype; cbn [truetype_calls];
    rewrite ?length_app; cbn [length]; lia.
Qed.

(** ** Line layout of the other generators *)

Lemma draw_meeting_info_commands :
  forall (lines : list string) (img : Image) (fnt : font) (y : Z),
    commands (CreateTestEventImage.draw_meeting_info img fnt y lines) =
    (commands img ++
     text_commands
       (fun y line =>
          Text (30, y) line (CreateTestEventImage.meeting_color line) fnt None)
       25 y lines)%list.
Proof.
  induction lines as [|l rest IH]; intros img fnt y; simpl.
  - now rewrite app_nil_r.
  - rewrite IH. simpl. now rewrite <- app_assoc.
Qed.




(** X10.  The image of create_test_event_image holds the border, the title
    at (50, 50) and then one text per detail line, blank lines included: the
    [i]-th line is at the left margin 50, at y = 120 + 35 i, in black, in the
    body font. *)
Theorem event_image_layout :
  forall (title_font body_font : font) (lines : list string),
    length (commands (CreateTestEventImage.event_image title_font body_font
                        lines)) = (2 + length lines)%nat /\
    nth_error (commands (CreateTestEventImage.event_image title_font
                           body_font lines)) 0 =
    Some (Rectangle ((20, 20), (780, 580)) None (Some (Named "black")) 2) /\
    nth_error (commands (CreateTestEventImage.event_image title_font
                           body_font lines)) 1 =
    Some (Text (50, 50) "2025 개발자 컨퍼런스" (Named "black") title_font
            None) /\
    (forall (i : nat) (line : string),
        nth_error lines i = Some line ->
        nth_error (commands (CreateTestEventImage.event_image title_font
                               body_font lines)) (2 + i) =
        Some (Text (50, 120 + 35 * Z.of_nat i) line (Named "black") body_font
                None)).
Proof.
  intros tf bf lines. unfold CreateTestEventImage.event_image.
  rewrite draw_details_commands. cbn [commands draw_text draw_rectangle emit
    Image_new app].
  repeat split.
  - cbn [length]. now rewrite text_commands_length.
  - intros i line Hi. change (2 + i)%nat with (S (S i)). cbn [nth_error].
    exact (text_commands_nth _ 35 lines 120 i line Hi).
Qed.

Lemma event_image_layout_witness :
  nth_error
    (commands (CreateTestEventImage.event_image DefaultFont DefaultFont
                 CreateTestEventImage.details)) (2 + 5) =
  Some (Text (50, 295) "주요 내용:" (Named "black") DefaultFont None).
Proof.
  destruct (event_image_layout DefaultFont DefaultFont
              CreateTestEventImage.details) as (_ & _ & _ & Hline).
  exact (Hline 5%nat "주요 내용:" eq_refl).
Defined.

(** X11.  The image of create_meeting_notice holds the header band, the
    header title and then one text per line: the [i]-th line is at x = 30,
    y = 100 + 25 i.  A blank line, a line that starts with a digit and a line
    that contains '안건' are drawn in the grey '#555555'. *)
Theorem meeting_image_layout :
  forall (title_font body_font : font) (lines : list string) (i : nat)
    (line : string),
    nth_error lines i = Some line ->
    exists c,
      nth_error (commands (CreateTestEventImage.meeting_image title_font
                             body_font lines)) (2 + i) = Some c /\
      text_xy c = Some (30, 100 + 25 * Z.of_nat i) /\
      text_payload c = Some line /\
      (line = "" \/ CreateTestEventImage.first_isdigit line = true \/
       str_in "안건" line = true ->
       text_fill c = Some (Named "#555555")).
Proof.
  intros tf bf lines i line Hi.
  unfold CreateTestEventImage.meeting_image.
  rewrite draw_meeting_info_commands. cbn [commands draw_text draw_rectangle
    emit Image_new app].
  change (2 + i)%nat with (S (S i)). cbn [nth_error].
  rewrite (text_commands_nth _ 25 lines 100 i line Hi).
  eexists. split; [reflexivity|]. repeat split.
  intros Hgrey. cbn [text_fill]. unfold CreateTestEventImage.meeting_color.
  destruct Hgrey as [->|[Hd|Ha]].
  - reflexivity.
  - rewrite Hd. cbn [negb]. now rewrite andb_false_r.
  - rewrite Ha. cbn [negb]. now rewrite andb_false_r.
Qed.

Lemma meeting_image_layout_witness :
  exists c,
    nth_error
      (commands (CreateTestEventImage.meeting_image DefaultFont DefaultFont
                   CreateTestEventImage.meeting_info)) (2 + 8) = Some c /\
    text_xy c = Some (30, 300) /\
    text_fill c = Some (Named "#555555").
Proof.
  destruct (meeting_image_layout DefaultFont DefaultFont
              CreateTestEventImage.meeting_info 8%nat "2. 역할 분담" eq_refl)
    as (c & Hc & Hxy & _ & Hfill).
  exists c. split; [exact Hc|]. split; [exact Hxy|].
  apply Hfill. right. left. reflexivity.
Defined.

(** ** create-test-image.py *)



Lemma test_case_outcome (rt : Runtime) (h : Host)
  (test_case : string * string) (w : World) :
  exists fnt w1,
    CreateTestImage.resolve_font h CreateTestImage.font_paths 40 w
    = (Ok fnt, w1) /\
    generation_outcome rt h true (800, 600) (Named "white")
      (test_image (fst test_case) fnt) (snd test_case)
      ("✅ Created: " ++ snd test_case) w tt
      (CreateTestImage.create_test_image rt h (fst test_case)
         (snd test_case) (800, 600) (Named "white") (Named "black") w).
Proof. apply create_test_image_outcome. Qed.

(** X13.  The loop of create-test-image.py ends at the first test case that
    raises, with its error.  A test case whose directory is missing raises
    and nothing is written, no directory is created and the later test
    cases are not attempted; when its image was drawn and the extension of
    its file name is known the error is the FileNotFoundError of the one
    save.  The script saves under test-images/ and never creates that
    directory, so this is how it ends, at its first test case, wherever
    test-images does not exist. *)
Theorem test_cases_stop_at_missing_directory :
  forall (rt : Runtime) (h : Host),
    (forall (test_case : string * string) (rest : list (string * string))
       (w : World) (e : exn),
        fst (CreateTestImage.create_test_image rt h (fst test_case)
               (snd test_case) (800, 600) (Named "white") (Named "black") w)
        = Raise e ->
        CreateTestImage.run_test_cases rt h (test_case :: rest) w =
        (Raise e,
         snd (CreateTestImage.create_test_image rt h (fst test_case)
                (snd test_case) (800, 600) (Named "white") (Named "black")
                w))) /\
    (forall (test_case : string * string) (rest : list (string * string))
       (w : World),
        dir_exists w (dirname (snd test_case)) = false ->
        exists e w',
          CreateTestImage.run_test_cases rt h (test_case :: rest) w =
          (Raise e, w') /\
          dirs w' = dirs w /\
          files w' = files w /\
          (forall fnt w1,
              CreateTestImage.resolve_font h CreateTestImage.font_paths 40 w
              = (Ok fnt, w1) ->
              new_image rt (800, 600) (Named "white") = Ok tt ->
              play rt (commands (test_image (fst test_case) fnt)) = Ok tt ->
              format_known rt (snd test_case) = true ->
              e = FileNotFoundError /\
              save_calls w' = (save_calls w ++ [snd test_case])%list)) /\
    (forall (w : World),
        dir_exists w "test-images" = false ->
        exists e w',
          CreateTestImage.script rt h w = (Raise e, w') /\
          dirs w' = dirs w /\
          files w' = files w /\
          (forall fnt w1,
              CreateTestImage.resolve_font h CreateTestImage.font_paths 40 w
              = (Ok fnt, w1) ->
              new_image rt (800, 600) (Named "white") = Ok tt ->
              play rt (commands (test_image (fst first_test_case) fnt))
              = Ok tt ->
              format_known rt "test-images/year_end_party.png" = true ->
              e = FileNotFoundError /\
              save_calls w' =
              (save_calls w ++ ["test-images/year_end_party.png"])%list)).
Proof.
  intros rt h.
  assert (Hstop : forall test_case rest w e,
             fst (CreateTestImage.create_test_image rt h (fst test_case)
                    (snd test_case) (800, 600) (Named "white")
                    (Named "black") w) = Raise e ->
             CreateTestImage.run_test_cases rt h (test_case :: rest) w =
             (Raise e,
              snd (CreateTestImage.create_test_image rt h (fst test_case)
                     (snd test_case) (800, 600) (Named "white")
                     (Named "black") w))).
  { intros test_case rest w e Hr. cbn [CreateTestImage.run_test_cases].
    unfold bind at 1.
    destruct (CreateTestImage.create_test_image rt h _ _ _ _ _ w)
      as [res w'].
    cbn [fst snd] in *. now subst res. }
  assert (Hmiss : forall test_case rest w,
             dir_exists w (dirname (snd test_case)) = false ->
             exists e w',
               CreateTestImage.run_test_cases rt h (test_case :: rest) w =
               (Raise e, w') /\
               dirs w' = dirs w /\
               files w' = files w /\
               (forall fnt w1,
                   CreateTestImage.resolve_font h CreateTestImage.font_paths
                     40 w = (Ok fnt, w1) ->
                   new_image rt (800, 600) (Named "white") = Ok tt ->
                   play rt (commands (test_image (fst test_case) fnt))
                   = Ok tt ->
                   format_known rt (snd test_case) = true ->
                   e = FileNotFoundError /\
                   save_calls w' = (save_calls w ++ [snd test_case])%list)).
  { intros test_case rest w Hno.
    destruct (test_case_outcome rt h test_case w) as (fnt & w1 & Hf & Ho).
    destruct (outcome_no_file _ _ _ _ _ _ _ _ _ _ _ Ho)
      as (e & Hr & Hd & Hfl & Hsave); [now rewrite Hno|].
    rewrite (Hstop test_case rest w e Hr).
    exists e. eexists. split; [reflexivity|].
    split; [exact Hd|]. split; [exact Hfl|].
    intros fnt' w1' Hf' Hn Hp Hfmt. rewrite Hf in Hf'.
    inversion Hf'; subst fnt' w1'.
    destruct (Hsave Hn Hp (fun _ => Hfmt)) as [He Hs].
    rewrite Hno in He. now split. }
  split; [exact Hstop|]. split; [exact Hmiss|].
  intros w Hno.
  destruct (Hmiss first_test_case (tl CreateTestImage.test_cases) w Hno)
    as (e & w' & Hrun & Hd & Hfl & Hsave).
  exists e, w'. split; [|split; [exact Hd|split; [exact Hfl|exact Hsave]]].
  unfold CreateTestImage.script. unfold bind at 1.
  change CreateTestImage.test_cases
    with (first_test_case :: tl CreateTestImage.test_cases).
  now rewrite Hrun.
Qed.

(** With every font installed and no directory test-images, the script ends
    with the FileNotFoundError of its first save. *)
Lemma test_cases_stop_at_missing_directory_witness :
  fst (CreateTestImage.script bitmap_runtime all_fonts empty_world) =
  Raise FileNotFoundError.
Proof.
  destruct (test_cases_stop_at_missing_directory bitmap_runtime all_fonts)
    as (_ & _ & Hscript).
  destruct (Hscript empty_world eq_refl) as (e & w' & Hrun & _ & _ & Hsave).
  rewrite Hrun. cbn [fst].
  destruct (Hsave (FreeTypeFont "/System/Library/Fonts/AppleSDGothicNeo.ttc"
                     40)
              (log_truetype empty_world
                 "/System/Library/Fonts/AppleSDGothicNeo.ttc" 40)
              eq_refl eq_refl eq_refl eq_refl) as [He _].
  now rewrite He.
Defined.





(** ** The script body of create-test-event-image.py *)



(** A run of the script body that returned went through its three
    generators and its two messages. *)
Lemma main_returned (rt : Runtime) (h : Host) (w : World) :
  fst (CreateTestEventImage.main rt h w) = Ok tt ->
  main_ready rt h /\
  dir_writable h "test-images" = true /\
  (dir_exists w "test-images" = true \/ dir_writable h "" = true).
Proof.
  intros Hr. unfold CreateTestEventImage.main in Hr.
  destruct (bind_returned _ _ _ _ Hr) as ([] & w0 & Hmk & Heq).
  rewrite Heq in Hr. clear Heq.
  destruct (bind_returned _ _ _ _ Hr) as (v1 & w1 & Hg1 & Heq).
  rewrite Heq in Hr. clear Heq.
  destruct (bind_returned _ _ _ _ Hr) as (v2 & w2 & Hg2 & Heq).
  rewrite Heq in Hr. clear Heq.
  destruct (bind_returned _ _ _ _ Hr) as (v3 & w3 & Hg3 & Heq).
  rewrite Heq in Hr. clear Heq.
  destruct (bind_returned _ _ _ _ Hr) as ([] & w4 & Hp1 & Heq).
  rewrite Heq in Hr. clear Heq.
  unfold lift in Hp1, Hr. cbn [fst] in Hr.
  assert (Hp1' : print_line rt CreateTestEventImage.all_created = Ok tt)
    by congruence.
  destruct (generator_returned rt h (800, 600) (Named "white")
              (CreateTestEventImage.event_fonts h
                 CreateTestEventImage.event_font_paths)
              (fun fonts => CreateTestEventImage.event_image (fst fonts)
                              (snd fonts) CreateTestEventImage.details)
              "test-images/conference.png" _ "test-images/conference.png"
              v1 w0 (try_except_total _ _) (event_fonts_inert h _)
              (event_fonts_independent h _) (f_equal fst Hg1))
    as (Hr1 & _ & Hw).
  destruct (generator_returned rt h (800, 1000) (Named "#1a1a2e")
              (CreateTestEventImage.concert_fonts h
                 CreateTestEventImage.concert_font_paths)
              (fun fonts => CreateTestEventImage.concert_image fonts
                              CreateTestEventImage.concert_info)
              "test-images/concert.png" _ "test-images/concert.png"
              v2 w1 (try_except_total _ _) (concert_fonts_inert h _)
              (concert_fonts_independent h _) (f_equal fst Hg2))
    as (Hr2 & _ & _).
  destruct (generator_returned rt h (600, 400) (Named "white")
              (CreateTestEventImage.meeting_fonts h
                 CreateTestEventImage.meeting_font_paths)
              (fun fonts => CreateTestEventImage.meeting_image (fst fonts)
                              (snd fonts) CreateTestEventImage.meeting_info)
              "test-images/meeting.png" _ "test-images/meeting.png"
              v3 w2 (try_except_total _ _) (meeting_fonts_inert h _)
              (meeting_fonts_independent h _) (f_equal fst Hg3))
    as (Hr3 & _ & _).
  split; [exact (conj Hr1 (conj Hr2 (conj Hr3 (conj Hp1' Hr))))|].
  split; [exact Hw|].
  destruct (dir_exists w "test-images") eqn:He; [now left|right].
  rewrite (makedirs_missing h w He) in Hmk.
  destruct (dir_writable h ""); [reflexivity|discriminate Hmk].
Qed.

(** X16.  The script body can be run again: after a run that returned, a
    second run returns as well; it finds test-images in place (exist_ok),
    creates no further directory and saves the same three paths once
    more. *)
Theorem main_can_be_rerun :
  forall (rt : Runtime) (h : Host) (w : World),
    fst (CreateTestEventImage.main rt h w) = Ok tt ->
    exists w2,
      CreateTestEventImage.main rt h (snd (CreateTestEventImage.main rt h w))
      = (Ok tt, w2) /\
      dirs w2 = dirs (snd (CreateTestEventImage.main rt h w)) /\
      save_calls w2 =
      (save_calls (snd (CreateTestEventImage.main rt h w)) ++
       [ "test-images/conference.png"; "test-images/concert.png";
         "test-images/meeting.png" ])%list /\
      map fst (files w2) =
      ([ "test-images/meeting.png"; "test-images/concert.png";
         "test-images/conference.png" ] ++
       map fst (files (snd (CreateTestEventImage.main rt h w))))%list.
Proof.
  intros rt h w Hr.
  destruct (main_returned rt h w Hr) as (Hready & Hdir & Hcwd).
  destruct (main_runs rt h w Hcwd Hdir Hready) as (w1 & Hm1 & He1 & _).
  rewrite Hm1. cbn [snd].
  destruct (main_runs rt h w1 (or_introl He1) Hdir Hready)
    as (w2 & Hm2 & _ & Hd2 & Hs2 & Hf2).
  rewrite He1 in Hd2. now exists w2.
Qed.

(** With every font installed, the script body runs twice in an empty
    working directory. *)
Lemma main_can_be_rerun_witness :
  fst (CreateTestEventImage.main bitmap_runtime all_fonts
         (snd (CreateTestEventImage.main bitmap_runtime all_fonts
                 empty_world))) = Ok tt.
Proof.
  assert (Hfirst : fst (CreateTestEventImage.main bitmap_runtime all_fonts
                          empty_world) = Ok tt).
  { vm_compute. reflexivity. }
  destruct (main_can_be_rerun bitmap_runtime all_fonts empty_world Hfirst)
    as (w2 & Hm2 & _).
  now rewrite Hm2.
Defined.


(** ** test-images/test-event.py *)










(** X19.  Whatever fonts were set up, test-images/test-event.py issues
    eleven draw calls: nine texts, each anchored 'mt' at x = 400, the middle
    of the 800-pixel canvas, on rows 50, 170, 220, 270, 320, 420, 460, 495
    and 530, and two rules from x = 100 to x = 700 at y = 130 and y = 380.
    The title uses the title font, the three event lines the body font and
    the other five texts the small font. *)
Theorem test_event_layout :
  forall (title_font body_font small_font : font),
    let cmds :=
      commands (TestEvent.event_image (title_font, body_font, small_font)) in
    map text_xy cmds =
    [ Some (400, 50); None; Some (400, 170); Some (400, 220);
      Some (400, 270); Some (400, 320); None; Some (400, 420);
      Some (400, 460); Some (400, 495); Some (400, 530) ] /\
    (forall c, In c cmds -> text_xy c <> None -> text_anchor c = Some "mt") /\
    nth_error cmds 1 =
    Some (Line (100, 130) (700, 130) (RGB 100 100 100) 2) /\
    nth_error cmds 6 =
    Some (Line (100, 380) (700, 380) (RGB 100 100 100) 2) /\
    map (fun c => match c with
                  | Text _ _ _ fnt _ => Some fnt
                  | _ => None
                  end) cmds =
    [ Some title_font; None; Some body_font; Some body_font; Some body_font;
      Some small_font; None; Some small_font; Some small_font;
      Some small_font; Some small_font ].
Proof.
  intros tf bf sf cmds. subst cmds. repeat split.
  intros c Hc Hxy. cbn in Hc.
  repeat (destruct Hc as [<-|Hc];
          [first [reflexivity | now contradiction Hxy]|]).
  destruct Hc.
Qed.

(** ** scripts/create-oauth-client.py *)




